(** * LLM provider and model router (vps-agent/src/core/llm.py)

    A shallow embedding of [llm.py]: the two provider classes with their
    [complete] method, the [ModelRouter] with [select_model] and
    [get_provider], and the factory [create_llm_setup], followed by the
    properties of the written specification that concern them.

    Modelling conventions.
    - Python values that the code only stores, forwards or tests for truth are
      values of [pyvalue]; a [dict] used as a map with arbitrary keys
      ([config], [providers], [models], the keyword arguments) is a [gmap]
      with string keys; a [dict] built as a literal and returned to the
      caller is a [PDict], an insertion-ordered association list.
    - A Python [float] is an IEEE-754 binary64 number, here the kernel's
      primitive [float]; comparisons are the IEEE ones.
    - A [str] is the byte string of its UTF-8 encoding (a lone surrogate in
      the same three-byte form); a character is a byte that continues no
      other, with the continuation bytes after it.  [str.lower] is modelled
      on ASCII letters, which is all the fragments "gpt" and "claude" can see.
    - A function that logs, calls the backend or raises runs in the monad [M]:
      it threads the trace of observable events and ends in [Ok] or [Raise].
    - The backend ([AsyncOpenAI.chat.completions.create]), the check the
      client's constructor makes of a [base_url], and Python's [eval] are
      oracles of the enclosing section.  [eval] runs the text in the frame of
      [complete]: its oracle is given the local variables, and it answers
      either with the outcome of an evaluation that left them alone, or with
      the end of a call that the evaluated text has taken over.
    - [json.loads] is a function of the text and of two settings of the
      interpreter, the digit limit of [int] and the room left for nested
      calls. *)

From Stdlib Require Import String Ascii List ZArith Lia DecimalString.
From Stdlib Require Import PrimFloat SpecFloat FloatOps FloatAxioms.
From stdpp Require Import base option strings gmap.

Set Warnings "-inexact-float,-register-all".
Local Open Scope string_scope.
Local Open Scope list_scope.

(** ** Python values *)

Inductive pyvalue : Type :=
| PNone
| PBool (b : bool)
| PInt (n : Z)
| PFloat (f : float)
| PStr (s : string)
| PList (items : list pyvalue)
| PDict (items : list (string * pyvalue)).

(** Truth value of an object, as [if x:] and [x or y] test it. *)
Definition truthy (v : pyvalue) : bool :=
  match v with
  | PNone => false
  | PBool b => b
  | PInt n => negb (n =? 0)%Z
  | PFloat f => negb (PrimFloat.eqb f 0%float)
  | PStr s => negb (String.eqb s "")
  | PList items => match items with [] => false | _ => true end
  | PDict items => match items with [] => false | _ => true end
  end.

(** [a or b] *)
Definition py_or (a b : pyvalue) : pyvalue := if truthy a then a else b.

(** [d.get(key, dflt)] on a map. *)
Definition dict_get (d : gmap string pyvalue) (key : string) (dflt : pyvalue) : pyvalue :=
  default dflt (d !! key).

(** [d.get(key)]: [None] when the key is absent. *)
Definition dict_get_none (d : gmap string pyvalue) (key : string) : pyvalue :=
  dict_get d key PNone.

(** [x in [a, b, c]] for strings. *)
Fixpoint str_in_list (x : string) (l : list string) : bool :=
  match l with
  | [] => false
  | y :: l' => String.eqb x y || str_in_list x l'
  end.

(** ** Strings: [str.lower] and the substring test [needle in hay] *)

Definition ascii_lower (c : ascii) : ascii :=
  let n := nat_of_ascii c in
  if (65 <=? n)%nat && (n <=? 90)%nat then ascii_of_nat (n + 32) else c.

Fixpoint str_lower (s : string) : string :=
  match s with
  | EmptyString => EmptyString
  | String c s' => String (ascii_lower c) (str_lower s')
  end.

Fixpoint str_contains (needle hay : string) : bool :=
  String.prefix needle hay ||
  match hay with
  | EmptyString => false
  | String _ hay' => str_contains needle hay'
  end.

(** ** Strings: characters *)

(** A byte of the form 10xxxxxx continues the character begun before it. *)
Definition is_continuation (c : ascii) : bool :=
  let n := nat_of_ascii c in (128 <=? n)%nat && (n <? 192)%nat.

(** [len(s)]: the number of characters. *)
Fixpoint str_len (s : string) : nat :=
  match s with
  | EmptyString => 0
  | String c rest => if is_continuation c then str_len rest else S (str_len rest)
  end.

(** [s[:n]]: the first [n] characters, each with all its bytes. *)
Fixpoint str_take (n : nat) (s : string) : string :=
  match s with
  | EmptyString => EmptyString
  | String c rest =>
    if is_continuation c then String c (str_take n rest)
    else match n with
         | O => EmptyString
         | S n' => String c (str_take n' rest)
         end
  end.

(** [str(n)] for a natural number. *)
Definition str_of_nat (n : nat) : string := NilZero.string_of_uint (Nat.to_uint n).

(** ** Exceptions and outcomes *)

(** An exception object: the name of its class, its message, and whether
    its class derives from [Exception], which is what an [except Exception]
    clause tests.  [KeyboardInterrupt], [SystemExit], [GeneratorExit],
    [asyncio.CancelledError], [BaseExceptionGroup] and whatever else derives
    from [BaseException] alone do not. *)
Record exn : Type := PyExn {
  exn_class : string;
  exn_msg : string;
  is_Exception : bool
}.

(** An exception of a class that derives from [Exception]. *)
Definition exception (name msg : string) : exn :=
  {| exn_class := name; exn_msg := msg; is_Exception := true |}.

(** An exception of a class that derives from [BaseException] alone. *)
Definition base_exception (name msg : string) : exn :=
  {| exn_class := name; exn_msg := msg; is_Exception := false |}.

(** The outcome of a call: a value, or an exception raised. *)
Inductive pyresult (A : Type) : Type :=
| Ok (a : A)
| Raise (e : exn).
Arguments Ok {A} a.
Arguments Raise {A} e.


(** ** The decoder of the [json] package

    [json.loads] as CPython implements it (strict mode, no hooks, the
    scanner of the [_json] extension): a recursive-descent scanner over the
    text.  Positions are not tracked, so a [JSONDecodeError] carries the
    message without its line and column. *)

(** The settings of the interpreter that the decoder depends on.
    [int_max_str_digits] is [sys.get_int_max_str_digits()], the most digits
    [int] converts from a string (4300 unless changed; 0 for no limit).
    [recursion_room] is the number of nested calls the interpreter still
    allows when the scanner starts: the recursion limit less the depth of
    the stack at that moment.  The scanner enters one such call for every
    object and every array it opens. *)
Record interpreter : Type := {
  int_max_str_digits : nat;
  recursion_room : nat
}.

(** How a scan fails: the text is malformed, an integer numeral has more
    digits than [int] converts, the containers are nested deeper than the
    interpreter allows; or the model has run out of fuel, which it never
    does. *)
Inductive scan_error : Type :=
| Malformed (msg : string)
| TooManyDigits (digits : nat)
| TooDeep (container : string)
| OutOfFuel.

Definition is_json_ws (c : ascii) : bool :=
  match c with
  | " "%char | "009"%char | "010"%char | "013"%char => true
  | _ => false
  end.

Fixpoint skip_ws (s : string) : string :=
  match s with
  | String c s' => if is_json_ws c then skip_ws s' else s
  | EmptyString => s
  end.

Fixpoint strip_prefix (p s : string) : option string :=
  match p, s with
  | EmptyString, _ => Some s
  | String a p', String b s' => if Ascii.eqb a b then strip_prefix p' s' else None
  | String _ _, EmptyString => None
  end.

(** [s] without its first character, when that character is [c]. *)
Definition starts (c : ascii) (s : string) : option string :=
  match s with
  | String c' rest => if Ascii.eqb c c' then Some rest else None
  | EmptyString => None
  end.

Definition is_digit (c : ascii) : bool :=
  let n := nat_of_ascii c in (48 <=? n)%nat && (n <=? 57)%nat.

Definition hex_digit (c : ascii) : option N :=
  let n := N_of_ascii c in
  if (48 <=? n)%N && (n <=? 57)%N then Some (n - 48)%N
  else if (97 <=? n)%N && (n <=? 102)%N then Some (n - 87)%N
  else if (65 <=? n)%N && (n <=? 70)%N then Some (n - 55)%N
  else None.

Definition hex4 (a b c d : ascii) : option N :=
  match hex_digit a, hex_digit b, hex_digit c, hex_digit d with
  | Some x, Some y, Some z, Some w => Some (((x * 16 + y) * 16 + z) * 16 + w)%N
  | _, _, _, _ => None
  end.

(** The UTF-8 bytes of a code point (a lone surrogate is written out in the
    same three-byte form). *)
Definition utf8_encode (cp : N) : string :=
  if (cp <? 128)%N then String (ascii_of_N cp) EmptyString
  else if (cp <? 2048)%N then
    String (ascii_of_N (192 + cp / 64))
      (String (ascii_of_N (128 + cp mod 64)) EmptyString)
  else if (cp <? 65536)%N then
    String (ascii_of_N (224 + cp / 4096))
      (String (ascii_of_N (128 + (cp / 64) mod 64))
        (String (ascii_of_N (128 + cp mod 64)) EmptyString))
  else
    String (ascii_of_N (240 + cp / 262144))
      (String (ascii_of_N (128 + (cp / 4096) mod 64))
        (String (ascii_of_N (128 + (cp / 64) mod 64))
          (String (ascii_of_N (128 + cp mod 64)) EmptyString))).

(** The character a one-letter escape stands for. *)
Definition backslash (c : ascii) : option ascii :=
  match c with
  | "034"%char => Some "034"%char
  | "\"%char => Some "\"%char
  | "/"%char => Some "/"%char
  | "b"%char => Some "008"%char
  | "f"%char => Some "012"%char
  | "n"%char => Some "010"%char
  | "r"%char => Some "013"%char
  | "t"%char => Some "009"%char
  | _ => None
  end.

Definition scan_result (A : Type) : Type := (scan_error + A * string)%type.

Definition prepend (chunk : string) (r : scan_result string) : scan_result string :=
  match r with
  | inl msg => inl msg
  | inr (s, rest) => inr (String.append chunk s, rest)
  end.

Definition nonempty (s : string) : bool :=
  match s with
  | EmptyString => false
  | String _ _ => true
  end.

(** [scanstring]: the text after an opening quote, up to the closing one.
    A four-digit escape needs a character after it, and two of them are read
    as a surrogate pair only when a character follows the second. *)
Fixpoint scanstring (s : string) : scan_result string :=
  match s with
  | EmptyString => inl (Malformed "Unterminated string starting at")
  | String c rest =>
    if Ascii.eqb c "034" then inr ("", rest)
    else if Ascii.eqb c "\" then
      match rest with
      | EmptyString => inl (Malformed "Unterminated string starting at")
      | String e rest1 =>
        if Ascii.eqb e "u" then
          match rest1 with
          | String h1 (String h2 (String h3 (String h4 rest2))) =>
            match hex4 h1 h2 h3 h4, nonempty rest2 with
            | Some uni, true =>
              match rest2 with
              | String b (String u (String l1 (String l2 (String l3 (String l4 rest3))))) =>
                let low :=
                  if Ascii.eqb b "\" && Ascii.eqb u "u" && nonempty rest3
                  then hex4 l1 l2 l3 l4 else None in
                match low with
                | Some uni2 =>
                  if (55296 <=? uni)%N && (uni <=? 56319)%N
                     && (56320 <=? uni2)%N && (uni2 <=? 57343)%N
                  then prepend
                         (utf8_encode (65536 + (uni - 55296) * 1024 + (uni2 - 56320)))
                         (scanstring rest3)
                  else prepend (utf8_encode uni) (scanstring rest2)
                | None => prepend (utf8_encode uni) (scanstring rest2)
                end
              | _ => prepend (utf8_encode uni) (scanstring rest2)
              end
            | _, _ => inl (Malformed "Invalid \uXXXX escape")
            end
          | _ => inl (Malformed "Invalid \uXXXX escape")
          end
        else
          match backslash e with
          | Some ch => prepend (String ch EmptyString) (scanstring rest1)
          | None => inl (Malformed "Invalid \escape")
          end
      end
    else if (nat_of_ascii c <? 32)%nat
         then inl (Malformed "Invalid control character at")
    else prepend (String c EmptyString) (scanstring rest)
  end.

(** Numbers.  [take_digits] splits off the longest prefix of decimal digits. *)
Fixpoint take_digits (s : string) : string * string :=
  match s with
  | String c s' =>
    if is_digit c then let (ds, rest) := take_digits s' in (String c ds, rest)
    else (EmptyString, s)
  | EmptyString => (EmptyString, EmptyString)
  end.

Fixpoint digits_value (acc : Z) (ds : string) : Z :=
  match ds with
  | String c ds' => digits_value (10 * acc + Z.of_nat (nat_of_ascii c - 48)) ds'
  | EmptyString => acc
  end.

(** [float(text)] for a decimal numeral [m * 10^e10] with sign [neg]: the
    binary64 number nearest to it, ties to even.  A negative exponent is a
    quotient; it is computed to 64 bits or more with a sticky last bit and
    rounded once. *)
Definition float_of_decimal (neg : bool) (m : Z) (e10 : Z) : float :=
  SF2Prim
    match m with
    | Zpos _ =>
      if (0 <=? e10)%Z then
        let m1 := (m * 10 ^ e10)%Z in
        binary_normalize prec emax (if neg then - m1 else m1)%Z 0 neg
      else
        let d := (10 ^ (- e10))%Z in
        let k := Z.max 0 (64 + Z.log2 d - Z.log2 m)%Z in
        let (q, r) := Z.div_eucl (m * 2 ^ k) d in
        let sticky := if (r =? 0)%Z then 0%Z else 1%Z in
        let m2 := (2 * q + sticky)%Z in
        binary_normalize prec emax (if neg then - m2 else m2)%Z (- (k + 1))%Z neg
    | _ => S754_zero neg
    end.

(** [int(text)] fails for a numeral of more digits than the interpreter
    converts; numerals of 640 digits or fewer are never refused. *)
Definition int_too_long (max_digits digits : nat) : bool :=
  (640 <? digits)%nat && (0 <? max_digits)%nat && (max_digits <? digits)%nat.

Section Decoder.

Variable max_digits : nat.

(** NUMBER_RE: an optional minus sign and an integer part (a single 0, or a
    nonzero digit and more digits); then, each optional, a fraction (a dot
    and one digit or more) and an exponent (e or E, an optional sign, one
    digit or more).  The value is [int] of the integer part when it stands
    alone, and [float] of the three parts otherwise.  Only [int] limits the
    digits it converts. *)
Definition match_number (s : string) : option (scan_result pyvalue) :=
  let (neg, s1) :=
    match starts "-" s with Some r => (true, r) | None => (false, s) end in
  let integer :=
    match starts "0" s1 with
    | Some r => Some ("0", r)
    | None =>
      let (ds, r) := take_digits s1 in
      match ds with EmptyString => None | _ => Some (ds, r) end
    end in
  match integer with
  | None => None
  | Some (int_ds, r) =>
    let (frac_ds, r1) :=
      match starts "." r with
      | Some r' =>
        let (ds, r2) := take_digits r' in
        match ds with EmptyString => (EmptyString, r) | _ => (ds, r2) end
      | None => (EmptyString, r)
      end in
    let '(has_exp, exp, r3) :=
      match starts "e" r1, starts "E" r1 with
      | Some r', _ | None, Some r' =>
        let (eneg, r2) :=
          match starts "-" r', starts "+" r' with
          | Some x, _ => (true, x)
          | None, Some x => (false, x)
          | None, None => (false, r')
          end in
        let (ds, r4) := take_digits r2 in
        match ds with
        | EmptyString => (false, 0%Z, r1)
        | _ => (true, if eneg then (- digits_value 0 ds)%Z else digits_value 0 ds, r4)
        end
      | None, None => (false, 0%Z, r1)
      end in
    match frac_ds, has_exp with
    | EmptyString, false =>
      if int_too_long max_digits (String.length int_ds)
      then Some (inl (TooManyDigits (String.length int_ds)))
      else
        let n := digits_value 0 int_ds in
        Some (inr (PInt (if neg then - n else n)%Z, r3))
    | _, _ =>
      Some (inr (PFloat (float_of_decimal neg
                           (digits_value 0 (String.append int_ds frac_ds))
                           (exp - Z.of_nat (String.length frac_ds))), r3))
    end
  end.

(** [d[key] = value] on an ordered dictionary. *)
Fixpoint pdict_set (d : list (string * pyvalue)) (key : string) (value : pyvalue)
    : list (string * pyvalue) :=
  match d with
  | [] => [(key, value)]
  | (k, v) :: d' =>
    if String.eqb k key then (k, value) :: d' else (k, v) :: pdict_set d' key value
  end.

(** [dict(pairs)] *)
Definition dict_of_pairs (pairs : list (string * pyvalue)) : list (string * pyvalue) :=
  fold_left (fun d kv => pdict_set d (fst kv) (snd kv)) pairs [].

(** The values that are no string and no container: the three names, a
    number, or one of the constants for the floats that are no number. *)
Definition scan_literal (s : string) : scan_result pyvalue :=
  match strip_prefix "null" s, strip_prefix "true" s, strip_prefix "false" s with
  | Some rest, _, _ => inr (PNone, rest)
  | _, Some rest, _ => inr (PBool true, rest)
  | _, _, Some rest => inr (PBool false, rest)
  | None, None, None =>
    match match_number s with
    | Some r => r
    | None =>
      match strip_prefix "NaN" s, strip_prefix "Infinity" s,
            strip_prefix "-Infinity" s with
      | Some rest, _, _ => inr (PFloat nan, rest)
      | _, Some rest, _ => inr (PFloat infinity, rest)
      | _, _, Some rest => inr (PFloat neg_infinity, rest)
      | None, None, None => inl (Malformed "Expecting value")
      end
    end
  end.

(** [scan_once], [JSONObject] and [JSONArray].  The loops of the two
    containers are the recursive calls of [json_object_pairs] and
    [json_array_items]; between two calls that each take one unit of fuel a
    character is consumed, so twice the length of the text and one more is
    never used up.  [room] is the number of containers that may still be
    opened inside one another: the scanner enters a recursive call of the
    interpreter when it meets the opening brace or bracket, before it looks
    at what follows. *)
Fixpoint scan_once (fuel room : nat) (s : string) : scan_result pyvalue :=
  match fuel with
  | O => inl OutOfFuel
  | S fuel =>
    match starts "034" s, starts "{" s, starts "[" s with
    | Some rest, _, _ =>
      match scanstring rest with
      | inl err => inl err
      | inr (str, rest') => inr (PStr str, rest')
      end
    | None, Some rest, _ =>
      match room with
      | O => inl (TooDeep "object")
      | S room =>
        match starts "}" (skip_ws rest), starts "034" (skip_ws rest) with
        | Some rest', _ => inr (PDict [], rest')
        | None, Some rest' => json_object_pairs fuel room [] rest'
        | None, None =>
          inl (Malformed "Expecting property name enclosed in double quotes")
        end
      end
    | None, None, Some rest =>
      match room with
      | O => inl (TooDeep "array")
      | S room =>
        match starts "]" (skip_ws rest) with
        | Some rest' => inr (PList [], rest')
        | None => json_array_items fuel room [] (skip_ws rest)
        end
      end
    | None, None, None => scan_literal s
    end
  end

with json_object_pairs (fuel room : nat) (pairs : list (string * pyvalue)) (s : string)
    : scan_result pyvalue :=
  match fuel with
  | O => inl OutOfFuel
  | S fuel =>
    match scanstring s with
    | inl err => inl err
    | inr (key, rest) =>
      match starts ":" (skip_ws rest) with
      | Some rest1 =>
        match scan_once fuel room (skip_ws rest1) with
        | inl err => inl err
        | inr (value, rest2) =>
          let pairs := pairs ++ [(key, value)] in
          match starts "}" (skip_ws rest2), starts "," (skip_ws rest2) with
          | Some rest3, _ => inr (PDict (dict_of_pairs pairs), rest3)
          | None, Some rest3 =>
            match starts "034" (skip_ws rest3) with
            | Some rest4 => json_object_pairs fuel room pairs rest4
            | None =>
              inl (Malformed "Expecting property name enclosed in double quotes")
            end
          | None, None => inl (Malformed "Expecting ',' delimiter")
          end
        end
      | None => inl (Malformed "Expecting ':' delimiter")
      end
    end
  end

with json_array_items (fuel room : nat) (values : list pyvalue) (s : string)
    : scan_result pyvalue :=
  match fuel with
  | O => inl OutOfFuel
  | S fuel =>
    match scan_once fuel room s with
    | inl err => inl err
    | inr (value, rest) =>
      let values := values ++ [value] in
      match starts "]" (skip_ws rest), starts "," (skip_ws rest) with
      | Some rest1, _ => inr (PList values, rest1)
      | None, Some rest1 => json_array_items fuel room values (skip_ws rest1)
      | None, None => inl (Malformed "Expecting ',' delimiter")
      end
    end
  end.

End Decoder.

(** The exceptions of the decoder.  [JSONDecodeError] derives from
    [ValueError]; the error of [int] is a plain [ValueError]; all three
    derive from [Exception]. *)
Definition JSONDecodeError (msg : string) : exn := exception "JSONDecodeError" msg.

Definition int_digits_error (max_digits digits : nat) : exn :=
  exception "ValueError"
    ("Exceeds the limit (" +:+ str_of_nat max_digits
     +:+ " digits) for integer string conversion: value has "
     +:+ str_of_nat digits
     +:+ " digits; use sys.set_int_max_str_digits() to increase the limit").

Definition recursion_error (container : string) : exn :=
  exception "RecursionError"
    ("maximum recursion depth exceeded while decoding a JSON " +:+ container
     +:+ " from a unicode string").

Definition out_of_fuel : exn :=
  exception "RecursionError" "maximum recursion depth exceeded".

Definition scan_exn (py : interpreter) (err : scan_error) : exn :=
  match err with
  | Malformed msg => JSONDecodeError msg
  | TooManyDigits digits => int_digits_error (int_max_str_digits py) digits
  | TooDeep container => recursion_error container
  | OutOfFuel => out_of_fuel
  end.

(** [json.loads(s)] for a [str]: no byte-order mark, one value, and nothing
    but white space around it. *)
Definition json_loads (py : interpreter) (s : string) : pyresult pyvalue :=
  match strip_prefix (String "239" (String "187" (String "191" EmptyString))) s with
  | Some _ => Raise (JSONDecodeError "Unexpected UTF-8 BOM (decode using utf-8-sig)")
  | None =>
    match scan_once (int_max_str_digits py) (2 * String.length s + 1)
            (recursion_room py) (skip_ws s) with
    | inl err => Raise (scan_exn py err)
    | inr (obj, rest) =>
      match skip_ws rest with
      | EmptyString => Ok obj
      | String _ _ => Raise (JSONDecodeError "Extra data")
      end
    end
  end.

(** ** Events and the monad *)

(** The client object of the [openai] package: it holds what it was
    constructed with. *)
Record AsyncOpenAI : Type := {
  api_key : pyvalue;
  base_url : option pyvalue
}.

(** The pieces of an f-string, kept apart: the rendering of a float or of an
    exception is the interpreter's business. *)
Inductive frag : Type :=
| FLit (s : string)
| FVal (v : pyvalue)
| FFloat (f : float)
| FExn (e : exn).

Inductive loglevel : Type := INFO | ERROR.

Inductive event : Type :=
| EvLog (level : loglevel) (msg : list frag)
| EvCreate (client : AsyncOpenAI) (kwargs : gmap string pyvalue)
| EvEval (source : string).

Definition M (A : Type) : Type := list event -> pyresult A * list event.

#[global] Instance M_ret : MRet M := fun A a t => (Ok a, t).

Definition raise {A} (e : exn) : M A := fun t => (Raise e, t).

#[global] Instance M_bind : MBind M := fun A B k m t =>
  match m t with
  | (Ok a, t') => k a t'
  | (Raise e, t') => (Raise e, t')
  end.

Definition emit (e : event) : M unit := fun t => (Ok tt, t ++ [e]).

Definition logger_info (msg : list frag) : M unit := emit (EvLog INFO msg).
Definition logger_error (msg : list frag) : M unit := emit (EvLog ERROR msg).

(** [try: body / except Exception as e: handler e]. *)
Definition try_except_Exception {A} (body : M A) (handler : exn -> M A) : M A :=
  fun t =>
    match body t with
    | (Ok a, t') => (Ok a, t')
    | (Raise e, t') => if is_Exception e then handler e t' else (Raise e, t')
    end.

Definition lift {A} (r : pyresult A) : M A := fun t => (r, t).

(** [d[key]] on a map: [KeyError] when the key is absent. *)
Definition getitem (d : gmap string pyvalue) (key : string) : pyresult pyvalue :=
  match d !! key with
  | Some v => Ok v
  | None => Raise (exception "KeyError" key)
  end.

Definition dict_getitem (d : gmap string pyvalue) (key : string) : M pyvalue :=
  lift (getitem d key).

(** ** ModelRouter *)

Inductive LLMProvider : Type :=
| AbacusProvider (client : AsyncOpenAI) (default_model : pyvalue)
| OpenAIProvider (client : AsyncOpenAI) (default_model : pyvalue).

Record ModelRouter : Type := {
  providers : gmap string LLMProvider;
  config : gmap string pyvalue;
  models : gmap string pyvalue
}.

(** [ModelRouter.__init__(providers, config=None)] *)
Definition ModelRouter_init (providers : gmap string LLMProvider)
    (config : option (gmap string pyvalue)) : ModelRouter :=
  let config := default ∅ config in
  {| providers := providers;
     config := config;
     models :=
       <["complex" := dict_get config "MODEL_COMPLEX" (PStr "claude-3-5-sonnet")]>
       (<["fast" := dict_get config "MODEL_FAST" (PStr "claude-3-haiku")]>
       (<["coding" := dict_get config "MODEL_CODING" (PStr "claude-3-5-sonnet")]>
       (<["default" := dict_get config "DEFAULT_MODEL" (PStr "claude-3-5-sonnet")]>
        ∅))) |}.

(** [ModelRouter.select_model(task_type, complexity)] *)
Definition select_model (self : ModelRouter) (task_type : string)
    (complexity : float) : M pyvalue :=
  if (0.7 <? complexity)%float then
    logger_info [FLit "High complexity ("; FFloat complexity; FLit "), using Opus"] ;;
    dict_getitem (models self) "complex"
  else if str_in_list task_type ["code"; "coding"; "programming"] then
    logger_info [FLit "Coding task, using Sonnet"] ;;
    dict_getitem (models self) "coding"
  else if (complexity <? 0.3)%float
          && str_in_list task_type ["simple"; "file_operation"; "read"] then
    logger_info [FLit "Simple task ("; FFloat complexity; FLit "), using Haiku"] ;;
    dict_getitem (models self) "fast"
  else if str_in_list task_type ["analysis"; "research"; "planning"] then
    logger_info [FLit "Complex task type ("; FLit task_type; FLit "), using Opus"] ;;
    dict_getitem (models self) "complex"
  else
    logger_info [FLit "Default routing, using Opus"] ;;
    dict_getitem (models self) "default".

(** ** Operations on Python objects that can fail *)

(** [d[key]] on an object. *)
Definition py_getitem (d : pyvalue) (key : string) : M pyvalue :=
  match d with
  | PDict items =>
    match List.find (fun kv => String.eqb (fst kv) key) items with
    | Some kv => mret (snd kv)
    | None => raise (exception "KeyError" key)
    end
  | _ => raise (exception "TypeError" "indices must be integers or slices, not str")
  end.

(** [result[key].append(x)]: the list stored under [key] grows in place. *)
Definition py_append_at (result : pyvalue) (key : string) (x : pyvalue) : M pyvalue :=
  l ← py_getitem result key;
  match l, result with
  | PList items, PDict d => mret (PDict (pdict_set d key (PList (items ++ [x]))))
  | _, _ => raise (exception "AttributeError" "object has no attribute 'append'")
  end.

(** [v[:n]] *)
Definition py_slice_to (n : nat) (v : pyvalue) : M pyvalue :=
  match v with
  | PStr s => mret (PStr (str_take n s))
  | PList items => mret (PList (firstn n items))
  | _ => raise (exception "TypeError" "object is not subscriptable")
  end.

(** [for x in xs: body], the body acting on the local state [s]. *)
Fixpoint py_for {A S} (xs : list A) (body : A -> S -> M S) (s : S) : M S :=
  match xs with
  | [] => mret s
  | x :: xs' => s' ← body x s; py_for xs' body s'
  end.

(** The same loop for a body that can put an end to it: the body answers
    with the next local state, or with what the loop is left with. *)
Fixpoint py_for_until {A S B} (xs : list A) (body : A -> S -> M (S + B)) (s : S)
    : M (S + B) :=
  match xs with
  | [] => mret (inl s)
  | x :: xs' =>
    step ← body x s;
    match step with
    | inl s' => py_for_until xs' body s'
    | inr b => mret (inr b)
    end
  end.

(** [[f(x) for x in v]] *)
Fixpoint py_map_items (f : pyvalue -> M pyvalue) (items : list pyvalue)
    : M (list pyvalue) :=
  match items with
  | [] => mret []
  | x :: items' => y ← f x; ys ← py_map_items f items'; mret (y :: ys)
  end.

Definition py_list_comp (f : pyvalue -> M pyvalue) (v : pyvalue) : M pyvalue :=
  match v with
  | PList items => ys ← py_map_items f items; mret (PList ys)
  | _ => raise (exception "TypeError" "object is not iterable")
  end.

(** [l[0]] *)
Definition list_getitem0 {A} (l : list A) : M A :=
  match l with
  | x :: _ => mret x
  | [] => raise (exception "IndexError" "list index out of range")
  end.

(** [s.lower()] *)
Definition py_lower (v : pyvalue) : M string :=
  match v with
  | PStr s => mret (str_lower s)
  | _ => raise (exception "AttributeError" "object has no attribute 'lower'")
  end.

(** ** The response objects of the [openai] package *)

Record Function : Type := { fn_name : string; fn_arguments : string }.

Record ChatCompletionMessageToolCall : Type := {
  tc_id : string;
  tc_function : Function
}.

Record ChatCompletionMessage : Type := {
  msg_content : option string;
  msg_tool_calls : option (list ChatCompletionMessageToolCall)
}.

Record Choice : Type := { choice_message : ChatCompletionMessage }.

Record ChatCompletion : Type := { resp_choices : list Choice }.

(** [message.content or ""] *)
Definition content_or_empty (content : option string) : string :=
  match content with
  | Some s => if String.eqb s "" then "" else s
  | None => ""
  end.

(** [if message.tool_calls:], with the calls to iterate over. *)
Definition selected_tool_calls (m : ChatCompletionMessage)
    : option (list ChatCompletionMessageToolCall) :=
  match msg_tool_calls m with
  | Some (tc :: tcs) => Some (tc :: tcs)
  | Some [] | None => None
  end.

(** ** Providers *)

(** The local variables of [OpenAIProvider.complete] at the call of [eval],
    which are what the evaluated text can read and, for the objects among
    them, change. *)
Record frame : Type := {
  frame_self : LLMProvider;
  frame_messages : pyvalue;
  frame_tools : pyvalue;
  frame_model : pyvalue;
  frame_kwargs : gmap string pyvalue;
  frame_completion_kwargs : gmap string pyvalue;
  frame_response : ChatCompletion;
  frame_message : ChatCompletionMessage;
  frame_result : pyvalue;
  frame_tool_call : ChatCompletionMessageToolCall
}.

(** What an evaluated text can leave in the trace: records written through
    the logger, and texts it hands to [eval] in turn.  The evaluation is
    synchronous, so a request to the backend, which has to be awaited, is not
    among them. *)
Inductive effect : Type :=
| EffLog (level : loglevel) (msg : list frag)
| EffEval (source : string).

Definition effect_event (x : effect) : event :=
  match x with
  | EffLog level msg => EvLog level msg
  | EffEval source => EvEval source
  end.

(** What [eval] comes to.  Either the text is evaluated to a value or an
    exception and the objects of the frame are as they were: [complete] then
    goes on as written.  Or the evaluated text interferes: it writes to the
    log, or changes the result, the list of tool calls that is being iterated
    over, the logger or any other object that [complete] still uses; how the
    call of [complete] ends is then its doing, and the oracle says what was
    added to the trace and what [complete] returned or raised in the end. *)
Inductive evaluation : Type :=
| Evaluates (outcome : pyresult pyvalue)
| Interferes (effects : list effect) (ending : pyresult pyvalue).

Section Providers.

(** What the backend answers to [client.chat.completions.create] called
    with the keyword arguments [kwargs]; what [eval] makes of a source text
    in a frame; and the settings of the interpreter. *)
Variable backend : AsyncOpenAI -> gmap string pyvalue -> pyresult ChatCompletion.
Variable py_eval : string -> frame -> evaluation.
Variable py : interpreter.

Definition chat_completions_create (client : AsyncOpenAI)
    (kwargs : gmap string pyvalue) : M ChatCompletion :=
  fun t => (backend client kwargs, t ++ [EvCreate client kwargs]).

(** [eval(source)], called where the local variables are [locals]. *)
Definition eval (source : string) (locals : frame) : M evaluation :=
  fun t => (Ok (py_eval source locals), t ++ [EvEval source]).

Definition emit_effects (effects : list effect) : M unit :=
  fun t => (Ok tt, t ++ map effect_event effects).

(** The request both providers build. *)
Definition completion_kwargs_of (model messages tools : pyvalue)
    (kwargs : gmap string pyvalue) : gmap string pyvalue :=
  let completion_kwargs : gmap string pyvalue :=
    <["max_tokens" := dict_get kwargs "max_tokens" (PInt 4096)]>
    (<["temperature" := dict_get kwargs "temperature" (PFloat 0.7)]>
    (<["messages" := messages]>
    (<["model" := model]> ∅))) in
  if truthy tools then
    <["tool_choice" := PStr "auto"]> (<["tools" := tools]> completion_kwargs)
  else completion_kwargs.

(** [AbacusProvider.complete(messages, tools, model, kwargs)]; [PNone] stands for an
    omitted [tools] or [model] *)
Definition AbacusProvider_complete (client : AsyncOpenAI) (default_model : pyvalue)
    (messages tools model : pyvalue) (kwargs : gmap string pyvalue) : M pyvalue :=
  let model := py_or model default_model in
  try_except_Exception
    (let completion_kwargs := completion_kwargs_of model messages tools kwargs in
     response ← chat_completions_create client completion_kwargs;
     choice ← list_getitem0 (resp_choices response);
     let message := choice_message choice in
     let result :=
       PDict [("content", PStr (content_or_empty (msg_content message)));
              ("tool_calls", PList [])] in
     result ←
       match selected_tool_calls message with
       | Some tool_calls =>
         py_for tool_calls (fun tool_call result =>
           arguments ← lift (json_loads py (fn_arguments (tc_function tool_call)));
           py_append_at result "tool_calls"
             (PDict [("id", PStr (tc_id tool_call));
                     ("function",
                      PDict [("name", PStr (fn_name (tc_function tool_call)));
                             ("arguments", arguments)])])) result
       | None => mret result
       end;
     content ← py_getitem result "content";
     prefix ← py_slice_to 100 content;
     logger_info [FLit "Abacus response: "; FVal prefix; FLit "..."];;
     calls ← py_getitem result "tool_calls";
     (if truthy calls then
        names ← py_list_comp
                  (fun tc => f ← py_getitem tc "function"; py_getitem f "name") calls;
        logger_info [FLit "Tool calls: "; FVal names]
      else mret tt);;
     mret result)
    (fun e =>
       logger_error [FLit "Abacus API error: "; FExn e];;
       raise e).

(** [OpenAIProvider.complete(messages, tools, model, kwargs)]; [PNone] stands for an
    omitted [tools] or [model].  The statements are those of the method; an
    evaluation that interferes ends the loop and the call, past the [except]
    clause, with the ending the oracle gives. *)
Definition OpenAIProvider_complete (client : AsyncOpenAI) (default_model : pyvalue)
    (messages tools model : pyvalue) (kwargs : gmap string pyvalue) : M pyvalue :=
  let self := OpenAIProvider client default_model in
  let model := py_or model default_model in
  ended ←
    try_except_Exception
      (let completion_kwargs := completion_kwargs_of model messages tools kwargs in
       response ← chat_completions_create client completion_kwargs;
       choice ← list_getitem0 (resp_choices response);
       let message := choice_message choice in
       let result :=
         PDict [("content", PStr (content_or_empty (msg_content message)));
                ("tool_calls", PList [])] in
       let locals (result : pyvalue) (tool_call : ChatCompletionMessageToolCall) :=
         {| frame_self := self;
            frame_messages := messages;
            frame_tools := tools;
            frame_model := model;
            frame_kwargs := kwargs;
            frame_completion_kwargs := completion_kwargs;
            frame_response := response;
            frame_message := message;
            frame_result := result;
            frame_tool_call := tool_call |} in
       looped ←
         match selected_tool_calls message with
         | Some tool_calls =>
           py_for_until tool_calls (fun tool_call result =>
             evaluation ← eval (fn_arguments (tc_function tool_call))
                            (locals result tool_call);
             match evaluation with
             | Evaluates outcome =>
               arguments ← lift outcome;
               result ←
                 py_append_at result "tool_calls"
                   (PDict [("id", PStr (tc_id tool_call));
                           ("function",
                            PDict [("name", PStr (fn_name (tc_function tool_call)));
                                   ("arguments", arguments)])]);
               mret (inl result)
             | Interferes effects ending =>
               emit_effects effects;;
               mret (inr ending)
             end) result
         | None => mret (inl result)
         end;
       match looped with
       | inl result =>
         content ← py_getitem result "content";
         prefix ← py_slice_to 100 content;
         logger_info [FLit "OpenAI response: "; FVal prefix; FLit "..."];;
         calls ← py_getitem result "tool_calls";
         (if truthy calls then
            names ← py_list_comp
                      (fun tc => f ← py_getitem tc "function"; py_getitem f "name")
                      calls;
            logger_info [FLit "Tool calls: "; FVal names]
          else mret tt);;
         mret (inl result)
       | inr ending => mret (inr ending)
       end)
      (fun e =>
         logger_error [FLit "OpenAI API error: "; FExn e];;
         raise e);
  match ended with
  | inl result => mret result
  | inr ending => lift ending
  end.

(** [provider.complete(...)]: the method of the provider's class. *)
Definition complete (self : LLMProvider) (messages tools model : pyvalue)
    (kwargs : gmap string pyvalue) : M pyvalue :=
  match self with
  | AbacusProvider client default_model =>
    AbacusProvider_complete client default_model messages tools model kwargs
  | OpenAIProvider client default_model =>
    OpenAIProvider_complete client default_model messages tools model kwargs
  end.

End Providers.

(** ** Provider lookup and the factory *)

(** [ModelRouter.get_provider(model)]; [None] is Python's [None]. *)
Definition get_provider (self : ModelRouter) (model : pyvalue) : M (option LLMProvider) :=
  lowered ← py_lower model;
  if str_contains "gpt" lowered then
    mret (providers self !! "openai")
  else
    lowered ← py_lower model;
    if str_contains "claude" lowered then
      mret (providers self !! "abacus")
    else
      mret (providers self !! "abacus").

Section Factory.

(** The error the constructor of the client raises for the [base_url] it is
    given, if any: the [openai] package makes a URL object of it and fails on
    what is none.  Without a [base_url] the client takes the address built
    into the package, which is one; an address set through the environment
    of the process is not modelled. *)
Variable url_error : pyvalue -> option exn.

(** [AsyncOpenAI(api_key=..., base_url=...)] *)
Definition AsyncOpenAI_init (api_key : pyvalue) (base_url : option pyvalue)
    : M AsyncOpenAI :=
  match base_url with
  | Some url =>
    match url_error url with
    | Some e => raise e
    | None => mret {| api_key := api_key; base_url := Some url |}
    end
  | None => mret {| api_key := api_key; base_url := None |}
  end.

(** [AbacusProvider.__init__(api_key, base_url, default_model)] *)
Definition AbacusProvider_init (api_key base_url default_model : pyvalue)
    : M LLMProvider :=
  client ← AsyncOpenAI_init api_key (Some base_url);
  mret (AbacusProvider client default_model).

(** [OpenAIProvider.__init__(api_key, default_model)] *)
Definition OpenAIProvider_init (api_key default_model : pyvalue) : M LLMProvider :=
  client ← AsyncOpenAI_init api_key None;
  mret (OpenAIProvider client default_model).

(** [create_llm_setup(config)] *)
Definition create_llm_setup (config : gmap string pyvalue)
    : M (option LLMProvider * ModelRouter) :=
  let providers : gmap string LLMProvider := ∅ in
  providers ←
    (if truthy (dict_get_none config "ABACUS_API_KEY") then
       key ← dict_getitem config "ABACUS_API_KEY";
       provider ←
         AbacusProvider_init key
           (dict_get config "ABACUS_BASE_URL" (PStr "https://api.abacus.ai/v1"))
           (dict_get config "DEFAULT_MODEL" (PStr "claude-3-5-sonnet"));
       logger_info [FLit "Abacus.AI provider initialized"];;
       mret (<["abacus" := provider]> providers)
     else mret providers);
  providers ←
    (if truthy (dict_get_none config "OPENAI_API_KEY") then
       key ← dict_getitem config "OPENAI_API_KEY";
       provider ←
         OpenAIProvider_init key
           (dict_get config "OPENAI_MODEL" (PStr "gpt-4-turbo-preview"));
       logger_info [FLit "OpenAI provider initialized"];;
       mret (<["openai" := provider]> providers)
     else mret providers);
  if (size providers =? 0)%nat then
    raise (exception "ValueError" "No LLM providers configured. Set ABACUS_API_KEY")
  else
    let router := ModelRouter_init providers (Some config) in
    let default_provider :=
      match providers !! "abacus" with
      | Some p => Some p
      | None => providers !! "openai"
      end in
    mret (default_provider, router).

End Factory.

(** ** Vocabulary of the statements *)

(** What [self.models[tier]] evaluates to. *)
Definition tier_model (self : ModelRouter) (tier : string) : pyresult pyvalue :=
  getitem (models self) tier.

(** The four tiers a router is configured with. *)
Definition tiers : list string := ["complex"; "fast"; "coding"; "default"].

(** The decision table of the written specification, in its order: a
    condition on the task type and the complexity, and the tier it selects.
    The fifth row, the fall-through, is the end of the table. *)
Definition decision_table : list ((string -> float -> bool) * string) :=
  [ (fun _ complexity => (0.7 <? complexity)%float, "complex");
    (fun task_type _ => str_in_list task_type ["code"; "coding"; "programming"],
     "coding");
    (fun task_type complexity =>
       (complexity <? 0.3)%float
       && str_in_list task_type ["simple"; "file_operation"; "read"],
     "fast");
    (fun task_type _ => str_in_list task_type ["analysis"; "research"; "planning"],
     "complex") ].

(** Top to bottom, the first row whose condition holds wins. *)
Fixpoint first_match (table : list ((string -> float -> bool) * string))
    (task_type : string) (complexity : float) : string :=
  match table with
  | [] => "default"
  | (condition, tier) :: rest =>
    if condition task_type complexity then tier
    else first_match rest task_type complexity
  end.

(** The table without its row [i]. *)
Definition without_row {A} (i : nat) (table : list A) : list A :=
  firstn i table ++ skipn (S i) table.

(** The provider key a model name resolves to, the one [get_provider] looks
    up in the registry: the fragment "gpt" selects the secondary backend,
    anything else the primary one, which is also the default. *)
Definition resolved_key (model : string) : string :=
  if str_contains "gpt" (str_lower model) then "openai" else "abacus".

(** A scan is in order for a text of length [n] when it does not report
    [OutOfFuel], reports too many digits only for more than the limit and too
    deep a nesting only for the two containers, and leaves no more than [n]
    characters. *)
Definition error_ok (max_digits : nat) (err : scan_error) : Prop :=
  match err with
  | OutOfFuel => False
  | TooManyDigits digits => max_digits < digits
  | TooDeep container => container = "object" \/ container = "array"
  | Malformed _ => True
  end.

Definition scan_ok {A} (max_digits n : nat) (r : scan_result A) : Prop :=
  match r with
  | inl err => error_ok max_digits err
  | inr (_, rest) => String.length rest <= n
  end.

(** The errors [json.loads] raises: the text is malformed, an integer
    numeral in it has more digits than [int] converts, or its containers are
    nested deeper than the interpreter has room for. *)
Definition decoder_error (py : interpreter) (e : exn) : Prop :=
  (exists msg, e = JSONDecodeError msg)
  \/ (exists digits,
        int_max_str_digits py < digits
        /\ e = int_digits_error (int_max_str_digits py) digits)
  \/ e = recursion_error "object"
  \/ e = recursion_error "array".

(** ** Sample inputs *)

Module Sample.

Definition abacus : LLMProvider :=
  AbacusProvider
    {| api_key := PStr "abacus-key";
       base_url := Some (PStr "https://api.abacus.ai/v1") |}
    (PStr "claude-3-5-sonnet").

Definition openai : LLMProvider :=
  OpenAIProvider {| api_key := PStr "openai-key"; base_url := None |}
    (PStr "gpt-4-turbo-preview").

(** An interpreter with the digit limit CPython starts with, and with room
    for nine hundred nested calls. *)
Definition python : interpreter :=
  {| int_max_str_digits := 4300; recursion_room := 900 |}.

(** A client constructor that takes every string for an address and
    refuses whatever is no string. *)
Definition url_error (url : pyvalue) : option exn :=
  match url with
  | PStr _ => None
  | _ => Some (exception "TypeError" "Invalid type for url")
  end.

Definition only_abacus : gmap string LLMProvider := {[ "abacus" := abacus ]}.

Definition both : gmap string LLMProvider :=
  <["openai" := openai]> {[ "abacus" := abacus ]}.

(** Every tier overridden, each by a different name. *)
Definition four_models : gmap string pyvalue :=
  <["MODEL_COMPLEX" := PStr "model-a"]>
  (<["MODEL_FAST" := PStr "model-b"]>
  (<["MODEL_CODING" := PStr "model-c"]>
  {[ "DEFAULT_MODEL" := PStr "model-d" ]})).

(** Only the default model of the primary backend is set. *)
Definition only_default_model : gmap string pyvalue :=
  {[ "DEFAULT_MODEL" := PStr "claude-3-opus" ]}.

(** The primary backend configured with a default model of its own. *)
Definition abacus_with_default_model : gmap string pyvalue :=
  <["ABACUS_API_KEY" := PStr "abacus-key"]> {[ "DEFAULT_MODEL" := PStr "claude-3-opus" ]}.

End Sample.

(** ** Vocabulary for [complete] *)

Definition provider_client (self : LLMProvider) : AsyncOpenAI :=
  match self with
  | AbacusProvider client _ | OpenAIProvider client _ => client
  end.

Definition provider_default_model (self : LLMProvider) : pyvalue :=
  match self with
  | AbacusProvider _ default_model | OpenAIProvider _ default_model => default_model
  end.

(** The name a provider gives itself in its diagnostics. *)
Definition provider_label (self : LLMProvider) : string :=
  match self with
  | AbacusProvider _ _ => "Abacus"
  | OpenAIProvider _ _ => "OpenAI"
  end.

(** The keyword arguments [complete] passes to the backend. *)
Definition request_kwargs (self : LLMProvider) (messages tools model : pyvalue)
    (kwargs : gmap string pyvalue) : gmap string pyvalue :=
  completion_kwargs_of (py_or model (provider_default_model self)) messages tools kwargs.

(** The entry of [tool_calls] built for a call whose arguments came out as
    [arguments]. *)
Definition tool_call_dict (tool_call : ChatCompletionMessageToolCall)
    (arguments : pyvalue) : pyvalue :=
  PDict [("id", PStr (tc_id tool_call));
         ("function",
          PDict [("name", PStr (fn_name (tc_function tool_call)));
                 ("arguments", arguments)])].

(** The calls in order, each argument text given to [parse]: the entries
    built, or the first error. *)
Fixpoint parse_calls (parse : string -> pyresult pyvalue)
    (tool_calls : list ChatCompletionMessageToolCall) : pyresult (list pyvalue) :=
  match tool_calls with
  | [] => Ok []
  | tool_call :: rest =>
    match parse (fn_arguments (tc_function tool_call)) with
    | Raise e => Raise e
    | Ok arguments =>
      match parse_calls parse rest with
      | Raise e => Raise e
      | Ok entries => Ok (tool_call_dict tool_call arguments :: entries)
      end
    end
  end.

(** The argument texts that get parsed: all up to and including the first one
    that fails. *)
Fixpoint parsed_texts (parse : string -> pyresult pyvalue)
    (tool_calls : list ChatCompletionMessageToolCall) : list string :=
  match tool_calls with
  | [] => []
  | tool_call :: rest =>
    let text := fn_arguments (tc_function tool_call) in
    text :: match parse text with
            | Ok _ => parsed_texts parse rest
            | Raise _ => []
            end
  end.

(** What the [except] clause of [complete] records for an error. *)
Definition error_log (label : string) (e : exn) : list event :=
  if is_Exception e
  then [EvLog ERROR [FLit (label +:+ " API error: "); FExn e]]
  else [].

Definition response_log (label content : string) : event :=
  EvLog INFO [FLit (label +:+ " response: ");
              FVal (PStr (str_take 100 content)); FLit "..."].

Definition tool_calls_log (tool_calls : list ChatCompletionMessageToolCall) : event :=
  EvLog INFO [FLit "Tool calls: ";
              FVal (PList (map (fun tc => PStr (fn_name (tc_function tc))) tool_calls))].

(** The error kinds of the written specification. *)
Definition error_taxonomy : list string :=
  ["ConfigurationError"; "ProviderNotConfigured"; "AuthError"; "RateLimitError";
   "TransportError"; "MalformedResponseError"].

Definition not_eval (ev : event) : Prop :=
  match ev with
  | EvEval _ => False
  | _ => True
  end.

Module Reply.

(** A response with one choice. *)
Definition response (content : option string)
    (tool_calls : option (list ChatCompletionMessageToolCall)) : ChatCompletion :=
  {| resp_choices :=
       [ {| choice_message :=
              {| msg_content := content; msg_tool_calls := tool_calls |} |} ] |}.

Definition tool_call (id name arguments : string) : ChatCompletionMessageToolCall :=
  {| tc_id := id;
     tc_function := {| fn_name := name; fn_arguments := arguments |} |}.

(** A backend that answers every request with [reply]. *)
Definition always (reply : pyresult ChatCompletion)
    : AsyncOpenAI -> gmap string pyvalue -> pyresult ChatCompletion :=
  fun _ _ => reply.

(** A table for [eval] with four texts.  A dictionary display with single
    quotes is a Python expression and no JSON text.  The name [kwargs]
    evaluates to the keyword arguments of [complete], taken here for a
    dictionary display in the order of the keys.  A call of the logger writes
    a record and evaluates to [None]; [complete] then goes on as written, and
    the ending is what it comes to for the one call of [logs].  Any other
    text, "{bad json" among them, is left a syntax error. *)
Definition python_eval (source : string) (locals : frame) : evaluation :=
  if String.eqb source "{'path': '/tmp'}" then
    Evaluates (Ok (PDict [("path", PStr "/tmp")]))
  else if String.eqb source "kwargs" then
    Evaluates (Ok (PDict (map_to_list (frame_kwargs locals))))
  else if String.eqb source "logger.error('x')" then
    Interferes
      [EffLog ERROR [FLit "x"];
       EffLog INFO [FLit "OpenAI response: "; FVal (PStr ""); FLit "..."];
       EffLog INFO [FLit "Tool calls: "; FVal (PList [PStr "log"])]]
      (Ok (PDict [("content", PStr "");
                  ("tool_calls",
                   PList [PDict [("id", PStr "call_1");
                                 ("function",
                                  PDict [("name", PStr "log");
                                         ("arguments", PNone)])]])]))
  else Evaluates (Raise (exception "SyntaxError" "invalid syntax")).

Definition quote : string := String "034" EmptyString.

(** The JSON text of an object with the one member [path]. *)
Definition json_object_text : string :=
  "{" +:+ quote +:+ "path" +:+ quote +:+ ": " +:+ quote +:+ "/tmp" +:+ quote +:+ "}".

Definition json_object : ChatCompletion :=
  response None (Some [tool_call "call_1" "read_file" json_object_text]).

Definition bad_json : ChatCompletion :=
  response None (Some [tool_call "call_1" "read_file" "{bad json"]).

Definition python_dict : ChatCompletion :=
  response None (Some [tool_call "call_1" "read_file" "{'path': '/tmp'}"]).

Definition json_array : ChatCompletion :=
  response None (Some [tool_call "call_1" "read_file" "[1, 2]"]).

Definition text_only : ChatCompletion := response (Some "Hello") None.

Definition logs : ChatCompletion :=
  response None (Some [tool_call "call_1" "log" "logger.error('x')"]).

Definition reads_kwargs : ChatCompletion :=
  response None (Some [tool_call "call_1" "read_file" "kwargs"]).

Definition user_turn : pyvalue :=
  PList [PDict [("role", PStr "user"); ("content", PStr "hi")]].

End Reply.

(** The statements inside the [try] of [AbacusProvider.complete], with the
    label of its diagnostics and [parser], the function applied to the
    argument text of a tool call, taken out. *)
Definition complete_body
    (backend : AsyncOpenAI -> gmap string pyvalue -> pyresult ChatCompletion)
    (label : string) (parser : string -> M pyvalue)
    (client : AsyncOpenAI) (completion_kwargs : gmap string pyvalue) : M pyvalue :=
  response ← chat_completions_create backend client completion_kwargs;
  choice ← list_getitem0 (resp_choices response);
  let message := choice_message choice in
  let result :=
    PDict [("content", PStr (content_or_empty (msg_content message)));
           ("tool_calls", PList [])] in
  result ←
    match selected_tool_calls message with
    | Some tool_calls =>
      py_for tool_calls (fun tool_call result =>
        arguments ← parser (fn_arguments (tc_function tool_call));
        py_append_at result "tool_calls"
          (PDict [("id", PStr (tc_id tool_call));
                  ("function",
                   PDict [("name", PStr (fn_name (tc_function tool_call)));
                          ("arguments", arguments)])])) result
    | None => mret result
    end;
  content ← py_getitem result "content";
  prefix ← py_slice_to 100 content;
  logger_info [FLit (label +:+ " response: "); FVal prefix; FLit "..."];;
  calls ← py_getitem result "tool_calls";
  (if truthy calls then
     names ← py_list_comp
               (fun tc => f ← py_getitem tc "function"; py_getitem f "name") calls;
     logger_info [FLit "Tool calls: "; FVal names]
   else mret tt);;
  mret result.

(** The result [complete] has built when [entries] are the tool calls
    appended so far. *)
Definition result_dict (content : string) (entries : list pyvalue) : pyvalue :=
  PDict [("content", PStr content); ("tool_calls", PList entries)].

(** The local variables of [OpenAIProvider.complete] when it evaluates the
    arguments of [tool_call], with [entries] appended so far. *)
Definition openai_frame (client : AsyncOpenAI) (default_model : pyvalue)
    (messages tools model : pyvalue) (kwargs : gmap string pyvalue)
    (response : ChatCompletion) (choice : Choice)
    (entries : list pyvalue) (tool_call : ChatCompletionMessageToolCall) : frame :=
  let self := OpenAIProvider client default_model in
  {| frame_self := self;
     frame_messages := messages;
     frame_tools := tools;
     frame_model := py_or model default_model;
     frame_kwargs := kwargs;
     frame_completion_kwargs := request_kwargs self messages tools model kwargs;
     frame_response := response;
     frame_message := choice_message choice;
     frame_result :=
       result_dict (content_or_empty (msg_content (choice_message choice))) entries;
     frame_tool_call := tool_call |}.

(** The statements inside the [try] of [OpenAIProvider.complete]. *)
Definition openai_complete_body
    (backend : AsyncOpenAI -> gmap string pyvalue -> pyresult ChatCompletion)
    (py_eval : string -> frame -> evaluation)
    (client : AsyncOpenAI) (default_model : pyvalue)
    (messages tools model : pyvalue) (kwargs : gmap string pyvalue)
    : M (pyvalue + pyresult pyvalue) :=
  let self := OpenAIProvider client default_model in
  let model := py_or model default_model in
  let completion_kwargs := completion_kwargs_of model messages tools kwargs in
  response ← chat_completions_create backend client completion_kwargs;
  choice ← list_getitem0 (resp_choices response);
  let message := choice_message choice in
  let result :=
    PDict [("content", PStr (content_or_empty (msg_content message)));
           ("tool_calls", PList [])] in
  let locals (result : pyvalue) (tool_call : ChatCompletionMessageToolCall) :=
    {| frame_self := self;
       frame_messages := messages;
       frame_tools := tools;
       frame_model := model;
       frame_kwargs := kwargs;
       frame_completion_kwargs := completion_kwargs;
       frame_response := response;
       frame_message := message;
       frame_result := result;
       frame_tool_call := tool_call |} in
  looped ←
    match selected_tool_calls message with
    | Some tool_calls =>
      py_for_until tool_calls (fun tool_call result =>
        evaluation ← eval py_eval (fn_arguments (tc_function tool_call))
                       (locals result tool_call);
        match evaluation with
        | Evaluates outcome =>
          arguments ← lift outcome;
          result ←
            py_append_at result "tool_calls"
              (PDict [("id", PStr (tc_id tool_call));
                      ("function",
                       PDict [("name", PStr (fn_name (tc_function tool_call)));
                              ("arguments", arguments)])]);
          mret (inl result)
        | Interferes effects ending =>
          emit_effects effects;;
          mret (inr ending)
        end) result
    | None => mret (inl result)
    end;
  match looped with
  | inl result =>
    content ← py_getitem result "content";
    prefix ← py_slice_to 100 content;
    logger_info [FLit "OpenAI response: "; FVal prefix; FLit "..."];;
    calls ← py_getitem result "tool_calls";
    (if truthy calls then
       names ← py_list_comp
                 (fun tc => f ← py_getitem tc "function"; py_getitem f "name")
                 calls;
       logger_info [FLit "Tool calls: "; FVal names]
     else mret tt);;
    mret (inl result)
  | inr ending => mret (inr ending)
  end.

(** How the loop over the selected tool calls ends: with the entries of
    all of them, with the error of one of them, or with the ending of a call
    that an evaluated text has taken over. *)
Inductive loop_end : Type :=
| Parsed (entries : list pyvalue)
| Failed (e : exn)
| TakenOver (ending : pyresult pyvalue).

(** The loop of [OpenAIProvider.complete]: its events and its end. *)
Fixpoint evaluate_calls (py_eval : string -> frame -> evaluation)
    (locals : list pyvalue -> ChatCompletionMessageToolCall -> frame)
    (entries : list pyvalue) (tool_calls : list ChatCompletionMessageToolCall)
    : list event * loop_end :=
  match tool_calls with
  | [] => ([], Parsed entries)
  | tool_call :: rest =>
    let text := fn_arguments (tc_function tool_call) in
    match py_eval text (locals entries tool_call) with
    | Evaluates (Ok arguments) =>
      let looped :=
        evaluate_calls py_eval locals
          (entries ++ [tool_call_dict tool_call arguments]) rest in
      (EvEval text :: fst looped, snd looped)
    | Evaluates (Raise e) => ([EvEval text], Failed e)
    | Interferes effects ending =>
      (EvEval text :: map effect_event effects, TakenOver ending)
    end
  end.

(** The loop of either provider. *)
Definition calls_outcome (py_eval : string -> frame -> evaluation) (py : interpreter)
    (self : LLMProvider) (messages tools model : pyvalue)
    (kwargs : gmap string pyvalue) (response : ChatCompletion) (choice : Choice)
    (tool_calls : list ChatCompletionMessageToolCall) : list event * loop_end :=
  match self with
  | AbacusProvider _ _ =>
    ([], match parse_calls (json_loads py) tool_calls with
         | Ok entries => Parsed entries
         | Raise e => Failed e
         end)
  | OpenAIProvider client default_model =>
    evaluate_calls py_eval
      (openai_frame client default_model messages tools model kwargs response choice)
      [] tool_calls
  end.

(** [complete] in one piece, by cases on the backend's answer: its outcome
    and the events it adds to the trace. *)
Definition complete_outcome
    (backend : AsyncOpenAI -> gmap string pyvalue -> pyresult ChatCompletion)
    (py_eval : string -> frame -> evaluation) (py : interpreter)
    (self : LLMProvider) (messages tools model : pyvalue)
    (kwargs : gmap string pyvalue) : pyresult pyvalue * list event :=
  let label := provider_label self in
  let client := provider_client self in
  let request := request_kwargs self messages tools model kwargs in
  match backend client request with
  | Raise e => (Raise e, EvCreate client request :: error_log label e)
  | Ok response =>
    match resp_choices response with
    | [] =>
      let e := exception "IndexError" "list index out of range" in
      (Raise e, EvCreate client request :: error_log label e)
    | choice :: _ =>
      let message := choice_message choice in
      let content := content_or_empty (msg_content message) in
      match selected_tool_calls message with
      | None =>
        (Ok (result_dict content []),
         [EvCreate client request; response_log label content])
      | Some tool_calls =>
        let looped :=
          calls_outcome py_eval py self messages tools model kwargs response choice
            tool_calls in
        match snd looped with
        | Parsed entries =>
          (Ok (result_dict content entries),
           EvCreate client request
             :: fst looped ++ [response_log label content; tool_calls_log tool_calls])
        | Failed e =>
          (Raise e, EvCreate client request :: fst looped ++ error_log label e)
        | TakenOver ending => (ending, EvCreate client request :: fst looped)
        end
      end
    end
  end.

(** The entries of a result answer to the tool calls they were built for. *)
Definition entries_of (tool_calls : list ChatCompletionMessageToolCall)
    (entries : list pyvalue) : Prop :=
  Forall2 (fun tool_call entry => exists arguments,
             entry = tool_call_dict tool_call arguments)
    tool_calls entries.


(** ** Vocabulary for the further properties *)


Definition evaluated (trace : list event) : list string :=
  flat_map (fun ev => match ev with EvEval source => [source] | _ => [] end) trace.

Definition log_records (trace : list event) : list (loglevel * list frag) :=
  flat_map (fun ev => match ev with EvLog level msg => [(level, msg)] | _ => [] end)
    trace.

(** The tool calls [complete] iterates over, given the backend's answer:
    those of the first choice, none when there is no answer, no choice or no
    selected call. *)
Definition answered_tool_calls (answer : pyresult ChatCompletion)
    : list ChatCompletionMessageToolCall :=
  match answer with
  | Ok response =>
    match resp_choices response with
    | choice :: _ => default [] (selected_tool_calls (choice_message choice))
    | [] => []
    end
  | Raise _ => []
  end.

(** Whether [complete] gets as far as [eval]: never on the primary provider,
    and on the secondary one when the backend's answer selects a tool call. *)
Definition reaches_eval (self : LLMProvider) (answer : pyresult ChatCompletion) : bool :=
  match self with
  | AbacusProvider _ _ => false
  | OpenAIProvider _ _ =>
    match answered_tool_calls answer with
    | [] => false
    | _ :: _ => true
    end
  end.

(** What [complete] comes to when it does not get as far as [eval]. *)
Definition plain_outcome (label : string) (py : interpreter) (client : AsyncOpenAI)
    (request : gmap string pyvalue) (answer : pyresult ChatCompletion)
    : pyresult pyvalue * list event :=
  match answer with
  | Raise e => (Raise e, EvCreate client request :: error_log label e)
  | Ok response =>
    match resp_choices response with
    | [] =>
      let e := exception "IndexError" "list index out of range" in
      (Raise e, EvCreate client request :: error_log label e)
    | choice :: _ =>
      let content := content_or_empty (msg_content (choice_message choice)) in
      match selected_tool_calls (choice_message choice) with
      | None =>
        (Ok (result_dict content []),
         [EvCreate client request; response_log label content])
      | Some tool_calls =>
        match parse_calls (json_loads py) tool_calls with
        | Ok entries =>
          (Ok (result_dict content entries),
           [EvCreate client request; response_log label content;
            tool_calls_log tool_calls])
        | Raise e => (Raise e, EvCreate client request :: error_log label e)
        end
      end
    end
  end.

(** The keys of the request [complete] builds. *)
Definition request_keys : list string :=
  ["model"; "messages"; "temperature"; "max_tokens"; "tools"; "tool_choice"].

(** The address the primary provider is constructed with. *)
Definition abacus_url (config : gmap string pyvalue) : pyvalue :=
  dict_get config "ABACUS_BASE_URL" (PStr "https://api.abacus.ai/v1").

(** The two providers a configuration describes. *)
Definition configured_abacus (config : gmap string pyvalue) : LLMProvider :=
  AbacusProvider
    {| api_key := dict_get_none config "ABACUS_API_KEY";
       base_url := Some (abacus_url config) |}
    (dict_get config "DEFAULT_MODEL" (PStr "claude-3-5-sonnet")).

Definition configured_openai (config : gmap string pyvalue) : LLMProvider :=
  OpenAIProvider {| api_key := dict_get_none config "OPENAI_API_KEY"; base_url := None |}
    (dict_get config "OPENAI_MODEL" (PStr "gpt-4-turbo-preview")).

(** The registry [create_llm_setup] builds from a configuration, when the
    constructors of the clients succeed. *)
Definition configured_providers (config : gmap string pyvalue)
    : gmap string LLMProvider :=
  let with_abacus : gmap string LLMProvider :=
    if truthy (dict_get_none config "ABACUS_API_KEY") then
      {[ "abacus" := configured_abacus config ]}
    else ∅ in
  if truthy (dict_get_none config "OPENAI_API_KEY") then
    <["openai" := configured_openai config]> with_abacus
  else with_abacus.

(** The error that stops [create_llm_setup] before it has a registry: the
    one the client's constructor raises for the address of the primary
    provider, when that provider is configured. *)
Definition setup_error (url_error : pyvalue -> option exn)
    (config : gmap string pyvalue) : option exn :=
  if truthy (dict_get_none config "ABACUS_API_KEY") then url_error (abacus_url config)
  else None.

(** The records [create_llm_setup] logs for a configuration. *)
Definition setup_log (config : gmap string pyvalue) : list event :=
  (if truthy (dict_get_none config "ABACUS_API_KEY")
   then [EvLog INFO [FLit "Abacus.AI provider initialized"]] else [])
  ++ (if truthy (dict_get_none config "OPENAI_API_KEY")
      then [EvLog INFO [FLit "OpenAI provider initialized"]] else []).

(** No tier of the router is overridden by the configuration. *)
Definition default_tiers (config : gmap string pyvalue) : Prop :=
  config !! "MODEL_COMPLEX" = None /\ config !! "MODEL_FAST" = None
  /\ config !! "MODEL_CODING" = None /\ config !! "DEFAULT_MODEL" = None.

(** Sample configurations. *)
Module Config.

Definition abacus_key : gmap string pyvalue := {[ "ABACUS_API_KEY" := PStr "abacus-key" ]}.

Definition openai_key : gmap string pyvalue := {[ "OPENAI_API_KEY" := PStr "openai-key" ]}.

Definition both_keys : gmap string pyvalue :=
  <["OPENAI_API_KEY" := PStr "openai-key"]> abacus_key.

(** The complex tier bound to [None]. *)
Definition complex_tier_none : gmap string pyvalue := {[ "MODEL_COMPLEX" := PNone ]}.

(** Both keys set, and a number where the address of the primary backend
    is expected. *)
Definition bad_url : gmap string pyvalue :=
  <["ABACUS_BASE_URL" := PInt 5]> both_keys.

End Config.

(** ** The tool tables (vps-agent/src/core/tools_definitions.py)

    The four tables of tool schemas are parameters: [get_tools] only
    concatenates them. *)

Section Tools.

Variables CORE_TOOLS AFFILIATE_TOOLS CONTENT_TOOLS PRODUCTPRAAT_TOOLS : list pyvalue.

Definition TOOLS : list pyvalue := CORE_TOOLS ++ AFFILIATE_TOOLS.

Definition ALL_TOOLS : list pyvalue :=
  ((CORE_TOOLS ++ AFFILIATE_TOOLS) ++ CONTENT_TOOLS) ++ PRODUCTPRAAT_TOOLS.

Definition TOOL_CATEGORIES : gmap string (list pyvalue) :=
  <["core" := CORE_TOOLS]>
  (<["affiliate" := AFFILIATE_TOOLS]>
  (<["content" := CONTENT_TOOLS]>
  (<["productpraat" := PRODUCTPRAAT_TOOLS]>
  (<["all" := ALL_TOOLS]> ∅)))).

(** [get_tools(categories=None)] *)
Definition get_tools (categories : option (list string)) : list pyvalue :=
  match categories with
  | None | Some [] => TOOLS
  | Some categories =>
    fold_left
      (fun tools cat =>
         match TOOL_CATEGORIES !! cat with
         | Some table => tools ++ table
         | None => tools
         end)
      categories []
  end.

End Tools.

(** * Properties *)

(** ** The decoder never runs out of fuel *)

Lemma skip_ws_length s : String.length (skip_ws s) <= String.length s.
Proof.
  induction s as [| c s IH]; [done |]. cbn [skip_ws].
  destruct (is_json_ws c); cbn [String.length]; lia.
Qed.

Lemma starts_length c s rest :
  starts c s = Some rest -> String.length s = S (String.length rest).
Proof.
  destruct s as [| c' s]; [done |]. cbn [starts].
  destruct (Ascii.eqb c c'); [| done]. by intros [= ->].
Qed.

Lemma strip_prefix_length p s rest :
  strip_prefix p s = Some rest -> String.length rest <= String.length s.
Proof.
  revert s. induction p as [| a p IH]; intros s.
  - cbn. by intros [= ->].
  - destruct s as [| b s]; [done |]. cbn [strip_prefix].
    destruct (Ascii.eqb a b); [| done].
    intros H. apply IH in H. cbn [String.length]. lia.
Qed.

Lemma take_digits_length s :
  String.length (snd (take_digits s)) <= String.length s.
Proof.
  induction s as [| c s IH]; [done |]. cbn [take_digits].
  destruct (is_digit c); [| done].
  destruct (take_digits s) as [ds rest]. cbn [snd String.length] in *. lia.
Qed.

(** Case analysis on the innermost [match] of the goal, keeping the
    equation. *)
Ltac destruct_match :=
  match goal with
  | |- context [match ?x with _ => _ end] =>
    lazymatch x with
    | context [match _ with _ => _ end] => fail
    | _ => destruct x eqn:?
    end
  end.

(** What the equations of a scan say about lengths. *)
Ltac length_facts :=
  repeat match goal with
         | H : starts _ _ = Some _ |- _ => apply starts_length in H
         | H : strip_prefix _ _ = Some _ |- _ => apply strip_prefix_length in H
         | H : take_digits ?s = _ |- _ =>
           let L := fresh "L" in
           pose proof (take_digits_length s) as L; rewrite H in L; clear H
         end;
  cbn [snd String.length] in *.

Section DecoderFuel.

Variable max_digits : nat.

Lemma scan_ok_mono {A} n m (r : scan_result A) :
  scan_ok max_digits n r -> n <= m -> scan_ok max_digits m r.
Proof. destruct r as [err | [a rest]]; cbn; [done | lia]. Qed.

Lemma prepend_ok n chunk r :
  scan_ok max_digits n r -> scan_ok max_digits n (prepend chunk r).
Proof. by destruct r as [err | [s rest]]. Qed.

Lemma scanstring_ok s : scan_ok max_digits (String.length s) (scanstring s).
Proof.
  remember (String.length s) as n eqn:Hn.
  assert (Hlen : String.length s <= n) by lia. clear Hn.
  assert (H : scan_ok max_digits (String.length s) (scanstring s));
    [| by apply (scan_ok_mono _ _ _ H)].
  revert s Hlen. induction n as [| n IH]; intros s Hlen.
  - destruct s; [exact I | cbn in Hlen; lia].
  - destruct s as [| c rest]; [exact I |]. cbn [scanstring].
    repeat match goal with
           | |- context [match ?x with _ => _ end] => destruct x
           end;
      cbn [String.length] in *;
      first
        [ exact I
        | cbn; lia
        | apply prepend_ok;
          match goal with
          | |- scan_ok _ _ (scanstring ?r) =>
            apply (scan_ok_mono (String.length r)); [apply IH |];
              cbn [String.length]; lia
          end ].
Qed.

Lemma int_too_long_limit digits :
  int_too_long max_digits digits = true -> max_digits < digits.
Proof.
  unfold int_too_long. intros H.
  apply andb_prop in H as [_ H]. by apply Nat.ltb_lt in H.
Qed.

Lemma match_number_ok s r :
  match_number max_digits s = Some r -> scan_ok max_digits (String.length s) r.
Proof.
  unfold match_number.
  repeat destruct_match; intros; simplify_eq; cbn [scan_ok error_ok];
    try (by apply int_too_long_limit); length_facts; lia.
Qed.

Lemma scan_literal_ok s :
  scan_ok max_digits (String.length s) (scan_literal max_digits s).
Proof.
  unfold scan_literal.
  destruct (strip_prefix "null" s) eqn:?; [cbn [scan_ok]; length_facts; lia |].
  destruct (strip_prefix "true" s) eqn:?; [cbn [scan_ok]; length_facts; lia |].
  destruct (strip_prefix "false" s) eqn:?; [cbn [scan_ok]; length_facts; lia |].
  destruct (match_number max_digits s) as [r |] eqn:Hnumber;
    [by apply match_number_ok |].
  repeat destruct_match; cbn [scan_ok error_ok]; try exact I; length_facts; lia.
Qed.

(** With fuel above twice the length of the text, the three scanners are in
    order; [json_array_items] is entered with one unit more. *)
Lemma scan_fuel fuel :
  (forall room s, 2 * String.length s + 1 <= fuel ->
     scan_ok max_digits (String.length s) (scan_once max_digits fuel room s))
  /\ (forall room pairs s, 2 * String.length s + 1 <= fuel ->
     scan_ok max_digits (String.length s)
       (json_object_pairs max_digits fuel room pairs s))
  /\ (forall room values s, 2 * String.length s + 2 <= fuel ->
     scan_ok max_digits (String.length s)
       (json_array_items max_digits fuel room values s)).
Proof.
  induction fuel as [| fuel (IHs & IHo & IHa)]; [repeat split; intros; lia |].
  split; [| split].
  - intros room s Hfuel. cbn [scan_once].
    destruct (starts "034" s) as [rest |] eqn:Hquote.
    { pose proof (scanstring_ok rest) as Hrest.
      destruct (scanstring rest) as [err | [str rest']]; length_facts; cbn in *;
        [done | lia]. }
    destruct (starts "{" s) as [rest |] eqn:Hbrace.
    { destruct room as [| room]; [cbn; by left |].
      pose proof (skip_ws_length rest).
      repeat destruct_match; length_facts; cbn [scan_ok error_ok]; try exact I;
        try lia.
      match goal with
      | |- scan_ok _ _ (json_object_pairs _ _ _ _ ?r) =>
        apply (scan_ok_mono (String.length r)); [apply IHo |]; lia
      end. }
    destruct (starts "[" s) as [rest |] eqn:Hbracket; [| apply scan_literal_ok].
    destruct room as [| room]; [cbn; by right |].
    pose proof (skip_ws_length rest).
    destruct_match; length_facts; cbn [scan_ok]; [lia |].
    apply (scan_ok_mono (String.length (skip_ws rest))); [apply IHa |]; lia.
  - intros room pairs s Hfuel. cbn [json_object_pairs].
    pose proof (scanstring_ok s) as Hkey.
    destruct (scanstring s) as [err | [key rest]]; [done |]. cbn [scan_ok] in Hkey.
    pose proof (skip_ws_length rest).
    destruct (starts ":" (skip_ws rest)) as [rest1 |] eqn:Hcolon; [| exact I].
    pose proof (skip_ws_length rest1). length_facts.
    pose proof (IHs room (skip_ws rest1) ltac:(lia)) as Hvalue.
    destruct (scan_once max_digits fuel room (skip_ws rest1))
      as [err | [value rest2]]; [done |].
    cbn [scan_ok] in Hvalue. pose proof (skip_ws_length rest2). cbv zeta.
    destruct (starts "}" (skip_ws rest2)) as [rest3 |] eqn:Hclose;
      [length_facts; cbn [scan_ok]; lia |].
    destruct (starts "," (skip_ws rest2)) as [rest3 |] eqn:Hcomma; [| exact I].
    pose proof (skip_ws_length rest3).
    destruct (starts "034" (skip_ws rest3)) as [rest4 |] eqn:Hquote; [| exact I].
    length_facts.
    apply (scan_ok_mono (String.length rest4)); [apply IHo |]; lia.
  - intros room values s Hfuel. cbn [json_array_items].
    pose proof (IHs room s ltac:(lia)) as Hvalue.
    destruct (scan_once max_digits fuel room s) as [err | [value rest]]; [done |].
    cbn [scan_ok] in Hvalue. pose proof (skip_ws_length rest). cbv zeta.
    destruct (starts "]" (skip_ws rest)) as [rest1 |] eqn:Hclose;
      [length_facts; cbn [scan_ok]; lia |].
    destruct (starts "," (skip_ws rest)) as [rest1 |] eqn:Hcomma; [| exact I].
    pose proof (skip_ws_length rest1). length_facts.
    apply (scan_ok_mono (String.length (skip_ws rest1))); [apply IHa |]; lia.
Qed.

End DecoderFuel.

(** The scan that [json.loads] starts is in order. *)
Lemma json_loads_scan py s :
  scan_ok (int_max_str_digits py) (String.length s)
    (scan_once (int_max_str_digits py) (2 * String.length s + 1) (recursion_room py)
       (skip_ws s)).
Proof.
  pose proof (skip_ws_length s).
  apply (scan_ok_mono _ (String.length (skip_ws s))); [| lia].
  apply scan_fuel. lia.
Qed.

(** [json.loads] raises a [JSONDecodeError], the [ValueError] of an integer
    with too many digits, or the [RecursionError] of a nesting too deep, and
    nothing else; the model never runs out of fuel. *)
Lemma json_loads_raises py s e :
  json_loads py s = Raise e -> decoder_error py e.
Proof.
  unfold json_loads, decoder_error.
  destruct (strip_prefix _ s); [intros [= <-]; left; eauto |].
  pose proof (json_loads_scan py s) as Hscan.
  destruct (scan_once _ _ _ _) as [err | [obj rest]].
  - intros [= <-]. cbn [scan_ok] in Hscan.
    destruct err as [msg | digits | container |]; cbn [scan_exn error_ok] in *.
    + left. eauto.
    + right; left. eauto.
    + destruct Hscan as [-> | ->]; [right; right; by left | right; right; by right].
    + done.
  - destruct (skip_ws rest); [done | intros [= <-]; left; eauto].
Qed.

Lemma decoder_error_class py e :
  decoder_error py e ->
  is_Exception e = true
  /\ (exn_class e = "JSONDecodeError" \/ exn_class e = "ValueError"
      \/ exn_class e = "RecursionError").
Proof.
  intros [(msg & ->) | [(digits & _ & ->) | [-> | ->]]]; cbn; auto.
Qed.

Lemma json_loads_fuel py s : json_loads py s <> Raise out_of_fuel.
Proof.
  intros Hraise. apply json_loads_raises in Hraise.
  destruct Hraise as [(msg & Hmsg) | [(digits & _ & Hdigits) | [Hdeep | Hdeep]]];
    by vm_compute in *.
Qed.

(** The decoder on a few texts. *)

Example json_loads_array : json_loads Sample.python "[1, 2.5, true, null]"
  = Ok (PList [PInt 1; PFloat 2.5%float; PBool true; PNone]).
Proof. by vm_compute. Qed.

Example json_loads_object :
  json_loads Sample.python Reply.json_object_text = Ok (PDict [("path", PStr "/tmp")]).
Proof. by vm_compute. Qed.

Example json_loads_nearest_double : json_loads Sample.python "0.7" = Ok (PFloat 0.7%float).
Proof. by vm_compute. Qed.

Example json_loads_overflow : json_loads Sample.python "-1e400" = Ok (PFloat neg_infinity).
Proof. by vm_compute. Qed.

Example json_loads_leading_zero : json_loads Sample.python "01" = Raise (JSONDecodeError "Extra data").
Proof. by vm_compute. Qed.

Example json_loads_single_quotes :
  json_loads Sample.python "{'path': '/tmp'}"
  = Raise (JSONDecodeError "Expecting property name enclosed in double quotes").
Proof. by vm_compute. Qed.

Example json_loads_unclosed :
  json_loads Sample.python "[[[[[[[[" = Raise (JSONDecodeError "Expecting value").
Proof. by vm_compute. Qed.

Example json_loads_not_strict :
  json_loads Sample.python "[NaN, Infinity, -Infinity]"
  = Ok (PList [PFloat nan; PFloat infinity; PFloat neg_infinity]).
Proof. by vm_compute. Qed.

Example json_loads_too_deep :
  json_loads {| int_max_str_digits := 4300; recursion_room := 2 |} "[[[]]]"
  = Raise (recursion_error "array").
Proof. by vm_compute. Qed.

(** ** The monad *)

Ltac run_M :=
  cbv [mbind M_bind mret M_ret raise lift logger_info logger_error emit
       dict_getitem] in *.

(** ** The router's tiers *)

Section Router.

Variable providers : gmap string LLMProvider.
Variable config : option (gmap string pyvalue).

Lemma tier_complex :
  models (ModelRouter_init providers config) !! "complex"
  = Some (dict_get (default ∅ config) "MODEL_COMPLEX" (PStr "claude-3-5-sonnet")).
Proof. unfold ModelRouter_init. cbn [models]. by simplify_map_eq. Qed.

Lemma tier_fast :
  models (ModelRouter_init providers config) !! "fast"
  = Some (dict_get (default ∅ config) "MODEL_FAST" (PStr "claude-3-haiku")).
Proof. unfold ModelRouter_init. cbn [models]. by simplify_map_eq. Qed.

Lemma tier_coding :
  models (ModelRouter_init providers config) !! "coding"
  = Some (dict_get (default ∅ config) "MODEL_CODING" (PStr "claude-3-5-sonnet")).
Proof. unfold ModelRouter_init. cbn [models]. by simplify_map_eq. Qed.

Lemma tier_default :
  models (ModelRouter_init providers config) !! "default"
  = Some (dict_get (default ∅ config) "DEFAULT_MODEL" (PStr "claude-3-5-sonnet")).
Proof. unfold ModelRouter_init. cbn [models]. by simplify_map_eq. Qed.

(** Every tier of a constructed router is bound. *)
Lemma tier_model_bound tier :
  tier ∈ tiers ->
  exists m,
    tier_model (ModelRouter_init providers config) tier = Ok m
    /\ models (ModelRouter_init providers config) !! tier = Some m.
Proof.
  unfold tiers, tier_model, getitem. intros Hin.
  repeat (apply elem_of_cons in Hin as [-> | Hin]);
    [ rewrite tier_complex | rewrite tier_fast | rewrite tier_coding
    | rewrite tier_default | by apply elem_of_nil in Hin ]; eauto.
Qed.

End Router.

(** [select_model] on any router: the tier is the first match of the table,
    and one diagnostic record is emitted. *)
Lemma select_model_table self task_type complexity t :
  fst (select_model self task_type complexity t)
    = tier_model self (first_match decision_table task_type complexity)
  /\ exists msg, snd (select_model self task_type complexity t) = t ++ [EvLog INFO msg].
Proof.
  unfold select_model, decision_table, first_match, tier_model.
  destruct (0.7 <? complexity)%float; [run_M; eauto |].
  destruct (str_in_list task_type ["code"; "coding"; "programming"]); [run_M; eauto |].
  destruct ((complexity <? 0.3)%float
            && str_in_list task_type ["simple"; "file_operation"; "read"]);
    [run_M; eauto |].
  destruct (str_in_list task_type ["analysis"; "research"; "planning"]);
    run_M; eauto.
Qed.

(** C4. [select_model] evaluates the decision table top to bottom and the
    first match wins: on a constructed router its result is the model of the
    tier that [first_match] finds in [decision_table]; whenever the complexity
    is above 0.7 that is the complex-tier model, whatever the task type; and
    [select_model("coding", 0.8)] is the complex-tier model while
    [select_model("coding", 0.5)] is the coding-tier model. *)
Theorem select_model_first_match_wins providers config task_type complexity t :
  let r := ModelRouter_init providers config in
  let cfg := default (∅ : gmap string pyvalue) config in
  let complex_model := dict_get cfg "MODEL_COMPLEX" (PStr "claude-3-5-sonnet") in
  let coding_model := dict_get cfg "MODEL_CODING" (PStr "claude-3-5-sonnet") in
  fst (select_model r task_type complexity t)
    = tier_model r (first_match decision_table task_type complexity)
  /\ tier_model r "complex" = Ok complex_model
  /\ tier_model r "coding" = Ok coding_model
  /\ ((0.7 <? complexity)%float = true ->
      fst (select_model r task_type complexity t) = Ok complex_model)
  /\ fst (select_model r "coding" 0.8%float t) = Ok complex_model
  /\ fst (select_model r "coding" 0.5%float t) = Ok coding_model.
Proof.
  intros r cfg complex_model coding_model.
  assert (Hcx : tier_model r "complex" = Ok complex_model).
  { unfold tier_model, getitem. subst r. by rewrite tier_complex. }
  assert (Hcd : tier_model r "coding" = Ok coding_model).
  { unfold tier_model, getitem. subst r. by rewrite tier_coding. }
  split; [apply select_model_table |].
  split; [exact Hcx |]. split; [exact Hcd |].
  split; [| split].
  - intros Hgt. rewrite (proj1 (select_model_table _ _ _ _)).
    cbn [decision_table first_match]. by rewrite Hgt.
  - by rewrite (proj1 (select_model_table _ _ _ _)).
  - by rewrite (proj1 (select_model_table _ _ _ _)).
Qed.

(** The hypothesis of C4 holds at complexity 0.9, where a "simple" task, which
    rule 3 would send to the fast tier below 0.3, gets the complex-tier
    model. *)
Lemma select_model_first_match_wins_witness :
  (0.7 <? 0.9)%float = true
  /\ fst (select_model (ModelRouter_init Sample.both (Some Sample.four_models))
            "simple" 0.9%float []) = Ok (PStr "model-a").
Proof.
  split; [reflexivity |].
  exact (proj1 (proj2 (proj2 (proj2
    (select_model_first_match_wins Sample.both (Some Sample.four_models)
       "simple" 0.9%float [])))) eq_refl).
Defined.

(** C5. The thresholds are strict.  At a complexity of exactly 0.7 rule 1
    does not fire and at exactly 0.3 rule 3 does not fire: the result is the
    one of the table without that row.  So [select_model("file_operation",
    0.2)] is the fast-tier model, chosen by rule 3, and
    [select_model("file_operation", 0.3)] falls through to the default
    tier. *)
Theorem select_model_strict_thresholds providers config task_type t :
  let r := ModelRouter_init providers config in
  let cfg := default (∅ : gmap string pyvalue) config in
  (0.7 <? 0.7)%float = false
  /\ fst (select_model r task_type 0.7%float t)
       = tier_model r (first_match (without_row 0 decision_table) task_type 0.7%float)
  /\ (0.3 <? 0.3)%float = false
  /\ fst (select_model r task_type 0.3%float t)
       = tier_model r (first_match (without_row 2 decision_table) task_type 0.3%float)
  /\ select_model r "file_operation" 0.2%float t
       = (Ok (dict_get cfg "MODEL_FAST" (PStr "claude-3-haiku")),
          t ++ [EvLog INFO [FLit "Simple task ("; FFloat 0.2%float;
                            FLit "), using Haiku"]])
  /\ select_model r "file_operation" 0.3%float t
       = (Ok (dict_get cfg "DEFAULT_MODEL" (PStr "claude-3-5-sonnet")),
          t ++ [EvLog INFO [FLit "Default routing, using Opus"]]).
Proof.
  intros r cfg.
  split; [reflexivity |].
  split; [by rewrite (proj1 (select_model_table _ _ _ _)) |].
  split; [reflexivity |].
  split; [by rewrite (proj1 (select_model_table _ _ _ _)) |].
  split.
  - unfold select_model.
    change ((0.7 <? 0.2)%float) with false. change ((0.2 <? 0.3)%float) with true.
    simpl (str_in_list _ _). cbn match. run_M.
    unfold getitem. subst r. by rewrite tier_fast.
  - unfold select_model.
    change ((0.7 <? 0.3)%float) with false. change ((0.3 <? 0.3)%float) with false.
    simpl (str_in_list _ _). cbn match. run_M.
    unfold getitem. subst r. by rewrite tier_default.
Qed.

(** C10. For every task type and every complexity, NaN and the infinities
    included, [select_model] on a constructed router returns: it does not
    raise, and its result is the model bound to one of the four tiers. *)
Theorem select_model_total providers config task_type complexity t :
  let r := ModelRouter_init providers config in
  exists tier m,
    tier ∈ tiers
    /\ models r !! tier = Some m
    /\ fst (select_model r task_type complexity t) = Ok m.
Proof.
  intros r.
  exists (first_match decision_table task_type complexity).
  assert (Hin : first_match decision_table task_type complexity ∈ tiers).
  { unfold decision_table, first_match, tiers.
    repeat match goal with |- context [if ?b then _ else _] => destruct b end;
      set_solver. }
  destruct (tier_model_bound providers config _ Hin) as (m & Hm & Hlookup).
  exists m. split; [exact Hin |]. split; [exact Hlookup |].
  by rewrite (proj1 (select_model_table _ _ _ _)).
Qed.

(** C9 as stated fails: with [DEFAULT_MODEL] configured and no override for
    a tier, the complex and coding tiers are not the configured default
    model; the same holds for the router that [create_llm_setup] builds
    beside a primary provider whose default model is the configured one. *)
Lemma tier_defaults_ignore_DEFAULT_MODEL :
  let r := ModelRouter_init Sample.both (Some Sample.only_default_model) in
  Sample.only_default_model !! "MODEL_COMPLEX" = None
  /\ Sample.only_default_model !! "MODEL_CODING" = None
  /\ Sample.only_default_model !! "DEFAULT_MODEL" = Some (PStr "claude-3-opus")
  /\ tier_model r "default" = Ok (PStr "claude-3-opus")
  /\ tier_model r "complex" = Ok (PStr "claude-3-5-sonnet")
  /\ tier_model r "coding" = Ok (PStr "claude-3-5-sonnet")
  /\ tier_model r "complex" <> tier_model r "default"
  /\ tier_model r "coding" <> tier_model r "default"
  /\ match fst (create_llm_setup Sample.url_error Sample.abacus_with_default_model [])
     with
     | Ok (Some primary, router) =>
       provider_default_model primary = PStr "claude-3-opus"
       /\ tier_model router "complex" = Ok (PStr "claude-3-5-sonnet")
       /\ tier_model router "coding" = Ok (PStr "claude-3-5-sonnet")
     | _ => False
     end.
Proof.
  cbv zeta. do 8 (split; [by vm_compute |]). vm_compute. done.
Qed.

(** C9, amended.  A tier whose override key is absent resolves to a fixed
    identifier: "claude-3-5-sonnet" for the complex and coding tiers,
    "claude-3-haiku" for the fast tier.  The first is also what the default
    tier resolves to when [DEFAULT_MODEL] is absent, so the complex and coding
    tiers agree with the default model of the primary backend exactly in
    that case (or when [DEFAULT_MODEL] names that identifier). *)
Theorem tier_defaults providers config :
  let r := ModelRouter_init providers config in
  let cfg := default (∅ : gmap string pyvalue) config in
  (cfg !! "MODEL_COMPLEX" = None ->
     tier_model r "complex" = Ok (PStr "claude-3-5-sonnet"))
  /\ (cfg !! "MODEL_CODING" = None ->
     tier_model r "coding" = Ok (PStr "claude-3-5-sonnet"))
  /\ (cfg !! "MODEL_FAST" = None ->
     tier_model r "fast" = Ok (PStr "claude-3-haiku"))
  /\ (cfg !! "DEFAULT_MODEL" = None ->
     tier_model r "default" = Ok (PStr "claude-3-5-sonnet"))
  /\ (forall m, cfg !! "DEFAULT_MODEL" = Some m -> tier_model r "default" = Ok m).
Proof.
  intros r cfg. unfold tier_model, getitem. subst r.
  rewrite tier_complex, tier_coding, tier_fast, tier_default.
  fold cfg. unfold dict_get.
  repeat split; intros; by simplify_option_eq.
Qed.

Lemma tier_defaults_witness :
  Sample.only_default_model !! "MODEL_COMPLEX" = None
  /\ tier_model (ModelRouter_init Sample.both (Some Sample.only_default_model))
       "complex" = Ok (PStr "claude-3-5-sonnet").
Proof.
  split; [reflexivity |].
  exact (proj1 (tier_defaults Sample.both (Some Sample.only_default_model)) eq_refl).
Defined.

(** ** Provider lookup *)

Lemma ascii_lower_idempotent c : ascii_lower (ascii_lower c) = ascii_lower c.
Proof. destruct c as [[] [] [] [] [] [] [] []]; reflexivity. Qed.

Lemma str_lower_idempotent s : str_lower (str_lower s) = str_lower s.
Proof.
  induction s as [| c s IH]; [reflexivity |].
  cbn [str_lower]. by rewrite ascii_lower_idempotent, IH.
Qed.

(** [get_provider] on a [str]: it never raises and leaves no trace; the
    result is the registry's entry for "openai" when the lowered name
    contains "gpt", and its entry for "abacus" otherwise. *)
Lemma get_provider_run self model t :
  get_provider self (PStr model) t
    = (Ok (if str_contains "gpt" (str_lower model)
           then providers self !! "openai" else providers self !! "abacus"), t).
Proof.
  unfold get_provider, py_lower. run_M.
  destruct (str_contains "gpt" (str_lower model)); [reflexivity |].
  by destruct (str_contains "claude" (str_lower model)).
Qed.

(** C2 as stated fails: with only the primary provider registered, a "gpt"
    model resolves to the key "openai", which is absent, and [get_provider]
    returns [None]; it raises nothing. *)
Lemma get_provider_gpt_without_openai :
  resolved_key "gpt-4-turbo-preview" = "openai"
  /\ Sample.only_abacus !! "openai" = None
  /\ get_provider (ModelRouter_init Sample.only_abacus None)
       (PStr "gpt-4-turbo-preview") [] = (Ok None, [])
  /\ (forall e, fst (get_provider (ModelRouter_init Sample.only_abacus None)
                      (PStr "gpt-4-turbo-preview") []) <> Raise e).
Proof. repeat split; try by vm_compute. Qed.

(** C2, amended.  For every model name whose resolved provider key is absent
    from the registry, [get_provider] returns [None]: it does not fail, and
    for a model name that is a string it never fails. *)
Theorem get_provider_absent_key self model t :
  providers self !! resolved_key model = None ->
  get_provider self (PStr model) t = (Ok None, t).
Proof.
  intros Habsent. rewrite get_provider_run. unfold resolved_key in Habsent.
  destruct (str_contains "gpt" (str_lower model)); by rewrite Habsent.
Qed.

Lemma get_provider_absent_key_witness :
  providers (ModelRouter_init Sample.only_abacus None)
    !! resolved_key "gpt-4-turbo-preview" = None
  /\ get_provider (ModelRouter_init Sample.only_abacus None)
       (PStr "gpt-4-turbo-preview") [] = (Ok None, []).
Proof.
  split; [reflexivity |].
  exact (get_provider_absent_key (ModelRouter_init Sample.only_abacus None)
           "gpt-4-turbo-preview" [] eq_refl).
Defined.

(** C6 as stated fails: a name that contains both fragments contains
    "claude", yet it resolves to the secondary provider, because "gpt" is
    tested first. *)
Lemma get_provider_claude_and_gpt :
  str_contains "claude" (str_lower "claude-vs-gpt") = true
  /\ fst (get_provider (ModelRouter_init Sample.both None) (PStr "claude-vs-gpt") [])
     = Ok (Sample.both !! "openai")
  /\ Sample.both !! "openai" = Some Sample.openai
  /\ Sample.both !! "abacus" = Some Sample.abacus
  /\ Sample.both !! "openai" <> Sample.both !! "abacus".
Proof. repeat split; try by vm_compute. Qed.

(** C6, amended.  [get_provider] resolves a model name by substring match on
    its lowered form, so without regard to case: a name that contains "gpt"
    resolves to the key "openai"; a name that contains "claude" and not "gpt"
    resolves to the key "abacus"; a name that contains neither falls back to
    the default key, "abacus". *)
Theorem get_provider_resolution self model t :
  let lowered := str_lower model in
  (str_contains "gpt" lowered = true ->
     get_provider self (PStr model) t = (Ok (providers self !! "openai"), t))
  /\ (str_contains "gpt" lowered = false -> str_contains "claude" lowered = true ->
     get_provider self (PStr model) t = (Ok (providers self !! "abacus"), t))
  /\ (str_contains "gpt" lowered = false -> str_contains "claude" lowered = false ->
     get_provider self (PStr model) t = (Ok (providers self !! "abacus"), t))
  /\ get_provider self (PStr model) t = get_provider self (PStr lowered) t
  /\ get_provider self (PStr "claude-3-5-sonnet") t = (Ok (providers self !! "abacus"), t)
  /\ get_provider self (PStr "gpt-4-turbo-preview") t = (Ok (providers self !! "openai"), t)
  /\ get_provider self (PStr "unknown-model") t = (Ok (providers self !! "abacus"), t).
Proof.
  intros lowered. subst lowered. rewrite !get_provider_run.
  rewrite str_lower_idempotent.
  repeat split; try reflexivity; try by intros ->.
Qed.

Lemma get_provider_resolution_witness :
  str_contains "gpt" (str_lower "GPT-4o") = true
  /\ get_provider (ModelRouter_init Sample.both None) (PStr "GPT-4o") []
     = (Ok (Some Sample.openai), []).
Proof.
  split; [reflexivity |].
  exact (proj1 (get_provider_resolution (ModelRouter_init Sample.both None)
                  "GPT-4o" []) eq_refl).
Defined.

(** ** The factory *)

Lemma truthy_get_none_lookup (d : gmap string pyvalue) key :
  truthy (dict_get_none d key) = true -> exists v, d !! key = Some v /\ truthy v = true.
Proof.
  unfold dict_get_none, dict_get. destruct (d !! key) as [v |]; cbn; [eauto | done].
Qed.

Lemma size_insert_nonzero {A} (m : gmap string A) k v :
  (size (<[k := v]> m) =? 0)%nat = false.
Proof.
  apply Nat.eqb_neq. intros Hsize. apply map_size_empty_iff in Hsize.
  by apply insert_non_empty in Hsize.
Qed.

(** [create_llm_setup] in one piece: the error of the primary client's
    constructor, if any; otherwise the registry and the router, or the
    [ValueError] of an empty registry. *)
Lemma create_llm_setup_run url_error config t :
  create_llm_setup url_error config t
  = match setup_error url_error config with
    | Some e => (Raise e, t)
    | None =>
      (if truthy (dict_get_none config "ABACUS_API_KEY")
          || truthy (dict_get_none config "OPENAI_API_KEY")
       then Ok (match configured_providers config !! "abacus" with
                | Some p => Some p
                | None => configured_providers config !! "openai"
                end,
                ModelRouter_init (configured_providers config) (Some config))
       else Raise (exception "ValueError"
                     "No LLM providers configured. Set ABACUS_API_KEY"),
       t ++ setup_log config)
    end.
Proof.
  unfold create_llm_setup, configured_providers, setup_log, setup_error,
    configured_abacus, configured_openai, abacus_url,
    AbacusProvider_init, OpenAIProvider_init, AsyncOpenAI_init.
  destruct (truthy (dict_get_none config "ABACUS_API_KEY")) eqn:Ha;
    destruct (truthy (dict_get_none config "OPENAI_API_KEY")) eqn:Ho;
    try (destruct (truthy_get_none_lookup _ _ Ha) as (ka & Hka & _));
    try (destruct (truthy_get_none_lookup _ _ Ho) as (ko & Hko & _));
    try destruct (url_error _) as [e |];
    unfold dict_getitem, getitem, dict_get_none, dict_get; rewrite ?Hka, ?Hko;
    run_M; cbn [default orb app];
    rewrite ?size_insert_nonzero, ?map_size_empty, <- ?app_assoc, ?app_nil_r;
    reflexivity.
Qed.

Lemma configured_abacus_lookup config :
  configured_providers config !! "abacus"
  = if truthy (dict_get_none config "ABACUS_API_KEY")
    then Some (configured_abacus config) else None.
Proof.
  unfold configured_providers.
  destruct (truthy (dict_get_none config "ABACUS_API_KEY"));
    destruct (truthy (dict_get_none config "OPENAI_API_KEY")); by simplify_map_eq.
Qed.

Lemma configured_openai_lookup config :
  configured_providers config !! "openai"
  = if truthy (dict_get_none config "OPENAI_API_KEY")
    then Some (configured_openai config) else None.
Proof.
  unfold configured_providers.
  destruct (truthy (dict_get_none config "ABACUS_API_KEY"));
    destruct (truthy (dict_get_none config "OPENAI_API_KEY")); by simplify_map_eq.
Qed.

Lemma configured_keys config key :
  is_Some (configured_providers config !! key) -> key = "abacus" \/ key = "openai".
Proof.
  unfold configured_providers. intros [p Hp].
  destruct (decide (key = "abacus")) as [-> | ?]; [by left |].
  destruct (decide (key = "openai")) as [-> | ?]; [by right |].
  destruct (truthy (dict_get_none config "ABACUS_API_KEY"));
    destruct (truthy (dict_get_none config "OPENAI_API_KEY"));
    by simplify_map_eq.
Qed.

(** C7 as stated fails: a credential key that is present but bound to the
    empty string constructs no provider, and the failure that follows is a
    [ValueError]. *)
Lemma create_llm_setup_empty_credential :
  let config : gmap string pyvalue := {[ "ABACUS_API_KEY" := PStr "" ]} in
  config !! "ABACUS_API_KEY" = Some (PStr "")
  /\ fst (create_llm_setup Sample.url_error config [])
     = Raise (exception "ValueError" "No LLM providers configured. Set ABACUS_API_KEY")
  /\ exn_class (exception "ValueError" "No LLM providers configured. Set ABACUS_API_KEY")
     <> "ConfigurationError".
Proof. cbv zeta. repeat split; try by vm_compute. Qed.

(** An address that the client's constructor refuses stops the factory,
    with the constructor's error and before anything is logged, also when
    the secondary backend is configured. *)
Example create_llm_setup_bad_url :
  truthy (dict_get_none Config.bad_url "OPENAI_API_KEY") = true
  /\ create_llm_setup Sample.url_error Config.bad_url []
     = (Raise (exception "TypeError" "Invalid type for url"), []).
Proof. split; by vm_compute. Qed.

(** C7, amended.  [create_llm_setup] constructs a provider exactly for each
    backend whose credential key is bound to a true value in the
    configuration (an absent key, [None] and the empty string construct
    none, without error).  It fails with a [ValueError] if and only if
    neither key is bound to a true value, so for [create_llm_setup({})];
    its only other failure is the error that the constructor of the primary
    client raises for the configured address, which it passes on as it is. *)
Theorem create_llm_setup_providers url_error config t :
  let abacus_set := truthy (dict_get_none config "ABACUS_API_KEY") in
  let openai_set := truthy (dict_get_none config "OPENAI_API_KEY") in
  match fst (create_llm_setup url_error config t) with
  | Raise e =>
    (abacus_set = false /\ openai_set = false
     /\ e = exception "ValueError" "No LLM providers configured. Set ABACUS_API_KEY")
    \/ (abacus_set = true /\ url_error (abacus_url config) = Some e)
  | Ok (default_provider, router) =>
    (abacus_set = true \/ openai_set = true)
    /\ (abacus_set = true -> url_error (abacus_url config) = None)
    /\ (is_Some (providers router !! "abacus") <-> abacus_set = true)
    /\ (is_Some (providers router !! "openai") <-> openai_set = true)
    /\ (forall key, is_Some (providers router !! key) ->
          key = "abacus" \/ key = "openai")
    /\ is_Some default_provider
  end
  /\ fst (create_llm_setup url_error ∅ t)
     = Raise (exception "ValueError" "No LLM providers configured. Set ABACUS_API_KEY").
Proof.
  intros abacus_set openai_set. split; [| reflexivity].
  subst abacus_set openai_set. rewrite create_llm_setup_run. unfold setup_error.
  destruct (truthy (dict_get_none config "ABACUS_API_KEY")) eqn:Ha.
  - destruct (url_error (abacus_url config)) as [e |] eqn:Hurl; cbn [fst orb].
    + right. by split.
    + cbn [providers ModelRouter_init].
      rewrite configured_abacus_lookup, configured_openai_lookup, Ha.
      split; [by left |]. split; [done |]. split; [by split; eauto |].
      split; [| split; [apply configured_keys | by eauto]].
      destruct (truthy (dict_get_none config "OPENAI_API_KEY"));
        split; try done; try (by intros []); by eauto.
  - cbn [fst orb].
    destruct (truthy (dict_get_none config "OPENAI_API_KEY")) eqn:Ho.
    + cbn [providers ModelRouter_init].
      rewrite configured_abacus_lookup, configured_openai_lookup, Ha, Ho.
      split; [by right |]. split; [done |].
      split; [split; [by intros [] | done] |].
      split; [by split; eauto |].
      split; [apply configured_keys | by eauto].
    + by left.
Qed.
(** ** [complete] *)

(** The handler of both providers logs and re-raises: the outcome of the
    [try] statement is the outcome of its body. *)
Lemma try_except_reraise {A} (body : M A) (label : string) t :
  try_except_Exception body
    (fun e => logger_error [FLit (label +:+ " API error: "); FExn e];; raise e) t
  = (fst (body t),
     snd (body t) ++ match fst (body t) with
                     | Raise e => error_log label e
                     | Ok _ => []
                     end).
Proof.
  unfold try_except_Exception, error_log. run_M.
  destruct (body t) as [[a | e] t']; cbn [fst snd].
  - by rewrite app_nil_r.
  - destruct (is_Exception e); [reflexivity | by rewrite app_nil_r].
Qed.

Lemma ret_run {A} (a : A) t : (mret a : M A) t = (Ok a, t).
Proof. reflexivity. Qed.

Lemma bind_run {A B} (m : M A) (k : A -> M B) t :
  (m ≫= k) t = match m t with
               | (Ok a, t') => k a t'
               | (Raise e, t') => (Raise e, t')
               end.
Proof. reflexivity. Qed.

(** The loop of the primary provider over the selected tool calls, for a
    parser that returns [parse text] and leaves no trace. *)
Lemma tool_calls_loop (parse : string -> pyresult pyvalue)
    tool_calls content entries t :
  py_for tool_calls
    (fun tool_call result =>
       arguments ← lift (parse (fn_arguments (tc_function tool_call)));
       py_append_at result "tool_calls"
         (PDict [("id", PStr (tc_id tool_call));
                 ("function",
                  PDict [("name", PStr (fn_name (tc_function tool_call)));
                         ("arguments", arguments)])]))
    (result_dict content entries) t
  = (match parse_calls parse tool_calls with
     | Ok new => Ok (result_dict content (entries ++ new))
     | Raise e => Raise e
     end, t).
Proof.
  unfold result_dict. revert entries t.
  induction tool_calls as [| tool_call rest IH]; intros entries t.
  - cbn. by rewrite !app_nil_r.
  - cbn [py_for parse_calls]. unfold mbind at 1, M_bind at 1.
    unfold mbind at 1, M_bind at 1. unfold lift at 1.
    destruct (parse (fn_arguments (tc_function tool_call))) as [arguments | e];
      [| reflexivity].
    unfold py_append_at, py_getitem. run_M. cbn.
    rewrite IH.
    destruct (parse_calls parse rest); [| reflexivity].
    by rewrite <- app_assoc.
Qed.

Lemma parse_calls_entries parse tool_calls entries :
  parse_calls parse tool_calls = Ok entries -> entries_of tool_calls entries.
Proof.
  revert entries.
  induction tool_calls as [| tool_call rest IH]; intros entries Hparse.
  - cbn in Hparse. injection Hparse as <-. constructor.
  - cbn in Hparse.
    destruct (parse (fn_arguments (tc_function tool_call))) as [v |]; [| done].
    destruct (parse_calls parse rest) as [entries' |]; [| done].
    injection Hparse as <-. constructor; [by exists v | by apply IH].
Qed.

(** The names read back from the entries are those of the calls. *)
Lemma tool_call_names tool_calls entries t :
  entries_of tool_calls entries ->
  py_map_items (fun tc => f ← py_getitem tc "function"; py_getitem f "name") entries t
  = (Ok (map (fun tc => PStr (fn_name (tc_function tc))) tool_calls), t).
Proof.
  intros Hentries. revert t.
  induction Hentries as [| tool_call entry rest entries (v & ->) _ IH]; intros t;
    [reflexivity |].
  cbn [py_map_items map]. rewrite bind_run.
  change ((f ← py_getitem (tool_call_dict tool_call v) "function";
           py_getitem f "name") t)
    with (Ok (PStr (fn_name (tc_function tool_call))) : pyresult pyvalue, t).
  cbv beta iota. rewrite bind_run, IH. reflexivity.
Qed.

Lemma entries_of_nonempty tool_call rest entries :
  entries_of (tool_call :: rest) entries -> truthy (PList entries) = true.
Proof. by inversion 1. Qed.

Lemma selected_tool_calls_nonempty message tool_calls :
  selected_tool_calls message = Some tool_calls ->
  exists tool_call rest, tool_calls = tool_call :: rest.
Proof.
  unfold selected_tool_calls.
  destruct (msg_tool_calls message) as [[| tc tcs] |]; [done | | done].
  intros [= <-]. eauto.
Qed.

(** What follows the loop in both methods: the response record and, when
    there are entries, the record of the names. *)
Lemma diagnostics_run {A} (label content : string) tool_calls entries
    (k : pyvalue -> A) t :
  entries_of tool_calls entries ->
  (content' ← py_getitem (result_dict content entries) "content";
   prefix ← py_slice_to 100 content';
   logger_info [FLit (label +:+ " response: "); FVal prefix; FLit "..."];;
   calls ← py_getitem (result_dict content entries) "tool_calls";
   (if truthy calls then
      names ← py_list_comp
                (fun tc => f ← py_getitem tc "function"; py_getitem f "name") calls;
      logger_info [FLit "Tool calls: "; FVal names]
    else mret tt);;
   mret (k (result_dict content entries))) t
  = (Ok (k (result_dict content entries)),
     t ++ response_log label content
       :: match tool_calls with
          | [] => []
          | _ :: _ => [tool_calls_log tool_calls]
          end).
Proof.
  intros Hentries. unfold result_dict.
  rewrite bind_run. cbn [py_getitem List.find fst snd String.eqb Ascii.eqb Bool.eqb].
  cbv [mret M_ret]. cbn [py_slice_to]. cbv [mret M_ret].
  rewrite bind_run. cbv beta iota.
  rewrite bind_run. unfold logger_info at 1, emit at 1. cbv beta iota.
  rewrite bind_run.
  change (py_getitem (PDict [("content", PStr content); ("tool_calls", PList entries)])
            "tool_calls" (t ++ [response_log label content]))
    with (Ok (PList entries) : pyresult pyvalue, t ++ [response_log label content]).
  cbv beta iota.
  destruct Hentries as [| tool_call entry rest entries' Hentry Hrest].
  - cbn [truthy]. rewrite bind_run. cbv [mret M_ret]. reflexivity.
  - cbn [truthy]. rewrite bind_run. unfold py_list_comp. rewrite !bind_run.
    rewrite (tool_call_names (tool_call :: rest) (entry :: entries'))
      by (by constructor).
    cbv [mret M_ret]. cbv beta iota. unfold logger_info, emit, tool_calls_log.
    by rewrite <- app_assoc.
Qed.

Section CompleteRun.

Variable backend : AsyncOpenAI -> gmap string pyvalue -> pyresult ChatCompletion.
Variable py_eval : string -> frame -> evaluation.
Variable py : interpreter.

Ltac finish_run := cbn [fst snd]; rewrite <- ?app_assoc; reflexivity.

(** The statements inside the [try] of the primary provider, by cases on
    the backend's answer. *)
Lemma abacus_body_run label client request t :
  complete_body backend label (fun text => lift (json_loads py text)) client request t
  = match backend client request with
    | Raise e => (Raise e, t ++ [EvCreate client request])
    | Ok response =>
      match resp_choices response with
      | [] =>
        (Raise (exception "IndexError" "list index out of range"),
         t ++ [EvCreate client request])
      | choice :: _ =>
        let content := content_or_empty (msg_content (choice_message choice)) in
        match selected_tool_calls (choice_message choice) with
        | None =>
          (Ok (result_dict content []),
           t ++ [EvCreate client request; response_log label content])
        | Some tool_calls =>
          match parse_calls (json_loads py) tool_calls with
          | Ok entries =>
            (Ok (result_dict content entries),
             t ++ [EvCreate client request; response_log label content;
                   tool_calls_log tool_calls])
          | Raise e => (Raise e, t ++ [EvCreate client request])
          end
        end
      end
    end.
Proof.
  unfold complete_body.
  rewrite bind_run. unfold chat_completions_create.
  destruct (backend client request) as [response | e]; [| reflexivity].
  rewrite bind_run.
  destruct (resp_choices response) as [| choice rest]; [reflexivity |].
  cbn [list_getitem0]. cbv [mret M_ret]. cbv zeta. rewrite bind_run.
  fold (result_dict (content_or_empty (msg_content (choice_message choice))) []).
  destruct (selected_tool_calls (choice_message choice)) as [tool_calls |] eqn:Hsel.
  - rewrite (tool_calls_loop (json_loads py)).
    destruct (parse_calls (json_loads py) tool_calls) as [entries |] eqn:Hparse;
      [| reflexivity].
    destruct (selected_tool_calls_nonempty _ _ Hsel) as (tc & tcs & ->).
    cbn [app]. cbv beta iota.
    etrans;
      [exact (diagnostics_run label _ (tc :: tcs) entries (fun result => result) _
                (parse_calls_entries (json_loads py) _ _ Hparse)) |].
    by rewrite <- app_assoc.
  - etrans;
      [exact (diagnostics_run label _ [] [] (fun result => result) _
                (List.Forall2_nil _)) |].
    by rewrite <- app_assoc.
Qed.

(** The loop of the secondary provider does what [evaluate_calls] says. *)
Lemma evaluate_calls_run (locals : pyvalue -> ChatCompletionMessageToolCall -> frame)
    content tool_calls entries t :
  let looped :=
    evaluate_calls py_eval (fun entries => locals (result_dict content entries))
      entries tool_calls in
  py_for_until tool_calls
    (fun tool_call result =>
       evaluation ← eval py_eval (fn_arguments (tc_function tool_call))
                      (locals result tool_call);
       match evaluation with
       | Evaluates outcome =>
         arguments ← lift outcome;
         result ←
           py_append_at result "tool_calls"
             (PDict [("id", PStr (tc_id tool_call));
                     ("function",
                      PDict [("name", PStr (fn_name (tc_function tool_call)));
                             ("arguments", arguments)])]);
         mret (inl result)
       | Interferes effects ending =>
         emit_effects effects;;
         mret (inr ending)
       end)
    (result_dict content entries) t
  = (match snd looped with
     | Parsed final => Ok (inl (result_dict content final))
     | Failed e => Raise e
     | TakenOver ending => Ok (inr ending)
     end,
     t ++ fst looped).
Proof.
  cbv zeta. revert entries t.
  induction tool_calls as [| tool_call rest IH]; intros entries t.
  - cbn. by rewrite app_nil_r.
  - cbn [py_for_until evaluate_calls]. rewrite !bind_run. unfold eval at 1.
    destruct (py_eval (fn_arguments (tc_function tool_call))
                (locals (result_dict content entries) tool_call))
      as [[arguments | e] | effects ending]; cbn [fst snd].
    + rewrite !bind_run. unfold lift at 1. cbv beta iota. rewrite bind_run.
      change (py_append_at (result_dict content entries) "tool_calls"
                (PDict [("id", PStr (tc_id tool_call));
                        ("function",
                         PDict [("name", PStr (fn_name (tc_function tool_call)));
                                ("arguments", arguments)])])
                (t ++ [EvEval (fn_arguments (tc_function tool_call))]))
        with (Ok (result_dict content (entries ++ [tool_call_dict tool_call arguments]))
                : pyresult pyvalue,
              t ++ [EvEval (fn_arguments (tc_function tool_call))]).
      cbv beta iota. rewrite ret_run, IH.
      by rewrite <- app_assoc.
    + rewrite !bind_run. reflexivity.
    + rewrite !bind_run. unfold emit_effects. rewrite ret_run.
      by rewrite <- app_assoc.
Qed.

(** The entries the loop ends with are those it began with and one for
    every tool call. *)
Lemma evaluate_calls_entries locals entries tool_calls final :
  snd (evaluate_calls py_eval locals entries tool_calls) = Parsed final ->
  exists new, final = entries ++ new /\ entries_of tool_calls new.
Proof.
  revert entries.
  induction tool_calls as [| tool_call rest IH]; intros entries.
  - cbn. intros [= <-]. exists []. split; [by rewrite app_nil_r | constructor].
  - cbn [evaluate_calls].
    destruct (py_eval _ _) as [[arguments | e] | effects ending]; cbn [snd];
      [| done | done].
    intros Hrest. destruct (IH _ Hrest) as (new & -> & Hnew).
    exists (tool_call_dict tool_call arguments :: new).
    split; [by rewrite <- app_assoc |]. constructor; [by eexists | exact Hnew].
Qed.

(** The statements inside the [try] of the secondary provider, by cases on
    the backend's answer. *)
Lemma openai_body_run client default_model messages tools model kwargs t :
  let self := OpenAIProvider client default_model in
  let request := request_kwargs self messages tools model kwargs in
  openai_complete_body backend py_eval client default_model messages tools model
    kwargs t
  = match backend client request with
    | Raise e => (Raise e, t ++ [EvCreate client request])
    | Ok response =>
      match resp_choices response with
      | [] =>
        (Raise (exception "IndexError" "list index out of range"),
         t ++ [EvCreate client request])
      | choice :: _ =>
        let content := content_or_empty (msg_content (choice_message choice)) in
        match selected_tool_calls (choice_message choice) with
        | None =>
          (Ok (inl (result_dict content [])),
           t ++ [EvCreate client request; response_log "OpenAI" content])
        | Some tool_calls =>
          let looped :=
            evaluate_calls py_eval
              (openai_frame client default_model messages tools model kwargs
                 response choice) [] tool_calls in
          match snd looped with
          | Parsed entries =>
            (Ok (inl (result_dict content entries)),
             t ++ EvCreate client request
               :: fst looped ++ [response_log "OpenAI" content;
                                 tool_calls_log tool_calls])
          | Failed e => (Raise e, t ++ EvCreate client request :: fst looped)
          | TakenOver ending =>
            (Ok (inr ending), t ++ EvCreate client request :: fst looped)
          end
        end
      end
    end.
Proof.
  cbv zeta. unfold openai_complete_body. cbv zeta.
  change (completion_kwargs_of (py_or model default_model) messages tools kwargs)
    with (request_kwargs (OpenAIProvider client default_model) messages tools
            model kwargs).
  set (request := request_kwargs _ _ _ _ _).
  rewrite bind_run. unfold chat_completions_create.
  destruct (backend client request) as [response | e]; [| reflexivity].
  rewrite bind_run.
  destruct (resp_choices response) as [| choice rest]; [reflexivity |].
  cbn [list_getitem0]. rewrite ret_run. cbv beta iota. rewrite bind_run.
  fold (result_dict (content_or_empty (msg_content (choice_message choice))) []).
  destruct (selected_tool_calls (choice_message choice)) as [tool_calls |] eqn:Hsel.
  - rewrite (evaluate_calls_run
               (fun result tool_call =>
                  {| frame_self := OpenAIProvider client default_model;
                     frame_messages := messages;
                     frame_tools := tools;
                     frame_model := py_or model default_model;
                     frame_kwargs := kwargs;
                     frame_completion_kwargs := request;
                     frame_response := response;
                     frame_message := choice_message choice;
                     frame_result := result;
                     frame_tool_call := tool_call |})).
    cbv zeta.
    change (evaluate_calls py_eval _ [] tool_calls)
      with (evaluate_calls py_eval
              (openai_frame client default_model messages tools model kwargs
                 response choice) [] tool_calls).
    destruct (evaluate_calls py_eval _ [] tool_calls) as [events looped] eqn:Hloop.
    cbn [fst snd].
    destruct looped as [entries | e | ending];
      [| by rewrite <- ?app_assoc | rewrite ret_run; by rewrite <- ?app_assoc].
    destruct (selected_tool_calls_nonempty _ _ Hsel) as (tc & tcs & ->).
    destruct (evaluate_calls_entries
                (openai_frame client default_model messages tools model kwargs
                   response choice) [] (tc :: tcs) entries) as (new & -> & Hnew);
      [by rewrite Hloop |].
    cbn [app]. cbv beta iota.
    etrans; [exact (diagnostics_run "OpenAI" _ (tc :: tcs) new inl _ Hnew) |].
    by rewrite <- !app_assoc.
  - rewrite ret_run. cbv beta iota.
    etrans; [exact (diagnostics_run "OpenAI" _ [] [] inl _ (List.Forall2_nil _)) |].
    by rewrite <- app_assoc.
Qed.

(** [complete] does what [complete_outcome] says. *)
Lemma complete_run self messages tools model kwargs t :
  complete backend py_eval py self messages tools model kwargs t
  = (fst (complete_outcome backend py_eval py self messages tools model kwargs),
     t ++ snd (complete_outcome backend py_eval py self messages tools model kwargs)).
Proof.
  unfold complete_outcome.
  destruct self as [client default_model | client default_model];
    cbn [complete provider_label provider_client calls_outcome].
  - change (AbacusProvider_complete backend py client default_model messages tools
              model kwargs)
      with (try_except_Exception
              (complete_body backend "Abacus" (fun text => lift (json_loads py text))
                 client
                 (request_kwargs (AbacusProvider client default_model) messages
                    tools model kwargs))
              (fun e =>
                 logger_error [FLit ("Abacus" +:+ " API error: "); FExn e];;
                 raise e)).
    rewrite try_except_reraise, abacus_body_run.
    destruct (backend client _) as [response | e]; [| finish_run].
    destruct (resp_choices response) as [| choice rest]; [finish_run |].
    cbv zeta.
    destruct (selected_tool_calls (choice_message choice)) as [tool_calls |];
      [| cbn [fst snd]; by rewrite app_nil_r].
    destruct (parse_calls (json_loads py) tool_calls) as [entries | e];
      cbn [fst snd app]; [by rewrite app_nil_r | finish_run].
  - change (OpenAIProvider_complete backend py_eval client default_model messages
              tools model kwargs)
      with (ended ←
              try_except_Exception
                (openai_complete_body backend py_eval client default_model messages
                   tools model kwargs)
                (fun e =>
                   logger_error [FLit ("OpenAI" +:+ " API error: "); FExn e];;
                   raise e);
            match ended with
            | inl result => mret result
            | inr ending => lift ending
            end).
    rewrite bind_run, try_except_reraise, openai_body_run. cbv zeta.
    destruct (backend client _) as [response | e]; [| finish_run].
    destruct (resp_choices response) as [| choice rest]; [finish_run |].
    destruct (selected_tool_calls (choice_message choice)) as [tool_calls |];
      [| cbn [fst snd]; by rewrite app_nil_r].
    destruct (evaluate_calls py_eval _ [] tool_calls) as [events looped].
    cbn [fst snd].
    destruct looped as [entries | e | ending]; cbn [fst snd].
    + rewrite app_nil_r. reflexivity.
    + finish_run.
    + rewrite app_nil_r. reflexivity.
Qed.

End CompleteRun.

(** ** What [complete] returns and what it raises *)

Lemma content_or_empty_default content : content_or_empty content = default "" content.
Proof.
  destruct content as [s |]; [| reflexivity]. cbn.
  destruct (String.eqb_spec s ""); by subst.
Qed.

Lemma selected_tool_calls_none message :
  msg_tool_calls message = None \/ msg_tool_calls message = Some [] ->
  selected_tool_calls message = None.
Proof. unfold selected_tool_calls. by intros [-> | ->]. Qed.

(** C8. When the backend's response selects no tools (its [tool_calls] is
    [None] or empty), [complete] returns, for either provider, the dictionary
    whose [tool_calls] is the empty list and whose [content] is the backend's
    text, the empty string when the backend supplied none. *)
Theorem complete_without_tool_calls backend py_eval py self messages tools model kwargs t
    response choice rest :
  backend (provider_client self) (request_kwargs self messages tools model kwargs)
    = Ok response ->
  resp_choices response = choice :: rest ->
  (msg_tool_calls (choice_message choice) = None
   \/ msg_tool_calls (choice_message choice) = Some []) ->
  fst (complete backend py_eval py self messages tools model kwargs t)
  = Ok (PDict [("content", PStr (default "" (msg_content (choice_message choice))));
               ("tool_calls", PList [])]).
Proof.
  intros Hreply Hchoices Hnone. rewrite complete_run. cbn [fst].
  unfold complete_outcome.
  rewrite Hreply, Hchoices, (selected_tool_calls_none _ Hnone).
  cbn [fst]. unfold result_dict. by rewrite content_or_empty_default.
Qed.

Lemma complete_without_tool_calls_witness :
  Reply.always (Ok Reply.text_only) (provider_client Sample.abacus)
    (request_kwargs Sample.abacus Reply.user_turn PNone PNone ∅)
  = Ok Reply.text_only
  /\ fst (complete (Reply.always (Ok Reply.text_only)) Reply.python_eval Sample.python
            Sample.abacus Reply.user_turn PNone PNone ∅ [])
     = Ok (PDict [("content", PStr "Hello"); ("tool_calls", PList [])]).
Proof.
  split; [reflexivity |].
  exact (complete_without_tool_calls (Reply.always (Ok Reply.text_only))
           Reply.python_eval Sample.python Sample.abacus Reply.user_turn PNone PNone ∅
           [] Reply.text_only _ [] eq_refl eq_refl (or_introl eq_refl)).
Defined.

(** C3 as stated fails: an exception of the backend's client library leaves
    [complete] as it is, under its own class, which is none of the error
    kinds of the taxonomy. *)
Lemma complete_backend_error_escapes :
  let e := exception "APIConnectionError" "Connection error." in
  fst (complete (Reply.always (Raise e)) Reply.python_eval Sample.python Sample.abacus
         Reply.user_turn PNone PNone ∅ []) = Raise e
  /\ fst (complete (Reply.always (Raise e)) Reply.python_eval Sample.python
            Sample.openai Reply.user_turn PNone PNone ∅ []) = Raise e
  /\ str_in_list (exn_class e) error_taxonomy = false.
Proof. cbv zeta. repeat split; by vm_compute. Qed.

(** C3, amended.  A failure of the backend leaves a provider's [complete]
    unchanged: when the backend call raises (a transport, authentication,
    rate-limit or any other backend-side error), [complete] makes no further
    step but to record the error in the log, which it does exactly when the
    exception derives from [Exception], and raises the very same exception.
    Nothing is classified or wrapped. *)
Theorem complete_reraises_unchanged backend py_eval py self messages tools model kwargs
    t e :
  let client := provider_client self in
  let request := request_kwargs self messages tools model kwargs in
  backend client request = Raise e ->
  complete backend py_eval py self messages tools model kwargs t
  = (Raise e,
     t ++ EvCreate client request
       :: (if is_Exception e
           then [EvLog ERROR [FLit (provider_label self +:+ " API error: "); FExn e]]
           else [])).
Proof.
  intros client request Hraise. rewrite complete_run.
  unfold complete_outcome. fold client request. by rewrite Hraise.
Qed.

Lemma complete_reraises_unchanged_witness :
  let e := exception "RateLimitError" "Error code: 429" in
  let cancelled := base_exception "CancelledError" "" in
  let run e :=
    complete (Reply.always (Raise e)) Reply.python_eval Sample.python Sample.openai
      Reply.user_turn PNone PNone ∅ [] in
  let request := request_kwargs Sample.openai Reply.user_turn PNone PNone ∅ in
  run e
  = (Raise e,
     [EvCreate (provider_client Sample.openai) request;
      EvLog ERROR [FLit "OpenAI API error: "; FExn e]])
  /\ run cancelled = (Raise cancelled, [EvCreate (provider_client Sample.openai) request]).
Proof.
  cbv zeta. split.
  - exact (complete_reraises_unchanged
             (Reply.always (Raise (exception "RateLimitError" "Error code: 429")))
             Reply.python_eval Sample.python Sample.openai Reply.user_turn PNone PNone
             ∅ [] (exception "RateLimitError" "Error code: 429") eq_refl).
  - exact (complete_reraises_unchanged
             (Reply.always (Raise (base_exception "CancelledError" "")))
             Reply.python_eval Sample.python Sample.openai Reply.user_turn PNone PNone
             ∅ [] (base_exception "CancelledError" "") eq_refl).
Defined.

(** ** Tool-call arguments *)

Lemma parse_calls_raise parse tool_calls e :
  parse_calls parse tool_calls = Raise e ->
  exists tool_call,
    tool_call ∈ tool_calls /\ parse (fn_arguments (tc_function tool_call)) = Raise e.
Proof.
  induction tool_calls as [| tool_call rest IH]; [done |]. cbn.
  destruct (parse (fn_arguments (tc_function tool_call))) as [v | e'] eqn:Hparse.
  - destruct (parse_calls parse rest) as [entries | e'']; [done |].
    intros [= ->]. destruct (IH eq_refl) as (tc & Hin & Htc).
    exists tc. split; [apply elem_of_cons; by right | exact Htc].
  - intros [= ->]. exists tool_call. split; [apply elem_of_cons; by left | exact Hparse].
Qed.

Lemma parse_calls_all parse tool_calls values :
  Forall2 (fun tc v => parse (fn_arguments (tc_function tc)) = Ok v) tool_calls values ->
  parse_calls parse tool_calls = Ok (zip_with tool_call_dict tool_calls values).
Proof.
  induction 1 as [| tc v tcs vs Hparse _ IH]; [reflexivity |].
  cbn. by rewrite Hparse, IH.
Qed.

Lemma parse_calls_some_raise parse tool_calls tool_call e :
  tool_call ∈ tool_calls ->
  parse (fn_arguments (tc_function tool_call)) = Raise e ->
  exists e', parse_calls parse tool_calls = Raise e'
             /\ exists tc, tc ∈ tool_calls
                           /\ parse (fn_arguments (tc_function tc)) = Raise e'.
Proof.
  intros Hin Hraise.
  destruct (parse_calls parse tool_calls) as [entries | e'] eqn:Hparse.
  - exfalso. revert entries Hparse.
    induction tool_calls as [| tc tcs IH]; intros entries Hparse.
    + by apply elem_of_nil in Hin.
    + cbn in Hparse. apply elem_of_cons in Hin as [-> | Hin].
      * by rewrite Hraise in Hparse.
      * destruct (parse (fn_arguments (tc_function tc))); [| done].
        destruct (parse_calls parse tcs) as [entries' |] eqn:Htcs; [| done].
        by apply (IH Hin entries').
  - exists e'. split; [reflexivity |]. by apply parse_calls_raise.
Qed.

Lemma error_log_not_eval label e : Forall not_eval (error_log label e).
Proof. unfold error_log. destruct (is_Exception e); repeat constructor. Qed.

(** The primary provider never calls [eval]. *)
Lemma abacus_complete_never_evals backend py_eval py client default_model
    messages tools model kwargs :
  Forall not_eval
    (snd (complete_outcome backend py_eval py (AbacusProvider client default_model)
            messages tools model kwargs)).
Proof.
  unfold complete_outcome. cbn [provider_client provider_label calls_outcome].
  destruct (backend _ _) as [response | e]; cbn [fst snd].
  - destruct (resp_choices response) as [| choice rest]; cbn [fst snd].
    + apply Forall_cons. split; [exact I | apply error_log_not_eval].
    + destruct (selected_tool_calls _); cbn [fst snd].
      * destruct (parse_calls _ _); cbn [fst snd app].
        -- repeat constructor.
        -- apply Forall_cons. split; [exact I | apply error_log_not_eval].
      * repeat constructor.
  - apply Forall_cons. split; [exact I | apply error_log_not_eval].
Qed.

(** The secondary provider hands the argument text of the first selected
    tool call to [eval], whatever the text is. *)
Lemma openai_complete_evals backend py_eval py client default_model
    messages tools model kwargs t response choice rest tool_call tool_calls :
  let self := OpenAIProvider client default_model in
  backend client (request_kwargs self messages tools model kwargs) = Ok response ->
  resp_choices response = choice :: rest ->
  msg_tool_calls (choice_message choice) = Some (tool_call :: tool_calls) ->
  exists more,
    snd (complete backend py_eval py self messages tools model kwargs t)
    = t ++ EvCreate client (request_kwargs self messages tools model kwargs)
        :: EvEval (fn_arguments (tc_function tool_call)) :: more.
Proof.
  intros self Hreply Hchoices Hcalls. subst self. rewrite complete_run. cbn [snd].
  unfold complete_outcome. cbn [provider_client provider_label calls_outcome].
  rewrite Hreply, Hchoices. unfold selected_tool_calls. rewrite Hcalls.
  cbn [evaluate_calls].
  destruct (py_eval _ _) as [[arguments | e] | effects ending]; cbn [fst snd].
  - destruct (snd (evaluate_calls _ _ _ _)); cbn [snd app]; eauto.
  - cbn [snd app]. eauto.
  - eauto.
Qed.

(** C1 as stated fails.  On the primary provider the arguments "{bad json"
    make [complete] fail with the decoder's [JSONDecodeError], which is not a
    [MalformedResponseError], and arguments that are a JSON array are parsed
    into a list, not an object.  On the secondary provider the same
    "{bad json" is handed to [eval], whatever [eval] makes of it, and what
    leaves [complete] is the error of [eval]; arguments that are a Python
    dictionary display, and no JSON text, are accepted. *)
Lemma complete_bad_json :
  let bad := Reply.always (Ok Reply.bad_json) in
  let run backend self :=
    complete backend Reply.python_eval Sample.python self Reply.user_turn PNone PNone
      ∅ [] in
  fst (run bad Sample.abacus)
    = Raise (JSONDecodeError "Expecting property name enclosed in double quotes")
  /\ exn_class (JSONDecodeError "Expecting property name enclosed in double quotes")
     <> "MalformedResponseError"
  /\ fst (run (Reply.always (Ok Reply.json_array)) Sample.abacus)
     = Ok (PDict [("content", PStr "");
                  ("tool_calls",
                   PList [tool_call_dict (Reply.tool_call "call_1" "read_file" "[1, 2]")
                            (PList [PInt 1; PInt 2])])])
  /\ (forall py_eval,
        EvEval "{bad json"
          ∈ snd (complete bad py_eval Sample.python Sample.openai Reply.user_turn
                   PNone PNone ∅ []))
  /\ fst (run bad Sample.openai) = Raise (exception "SyntaxError" "invalid syntax")
  /\ (exists e, json_loads Sample.python "{'path': '/tmp'}" = Raise e)
  /\ fst (run (Reply.always (Ok Reply.python_dict)) Sample.openai)
     = Ok (PDict [("content", PStr "");
                  ("tool_calls",
                   PList [tool_call_dict
                            (Reply.tool_call "call_1" "read_file" "{'path': '/tmp'}")
                            (PDict [("path", PStr "/tmp")])])]).
Proof.
  cbv zeta. repeat split; try by vm_compute.
  - intros py_eval.
    destruct (openai_complete_evals (Reply.always (Ok Reply.bad_json)) py_eval
                Sample.python
                {| api_key := PStr "openai-key"; base_url := None |}
                (PStr "gpt-4-turbo-preview") Reply.user_turn PNone PNone ∅ []
                Reply.bad_json
                {| choice_message :=
                     {| msg_content := None;
                        msg_tool_calls :=
                          Some [Reply.tool_call "call_1" "read_file" "{bad json"] |} |}
                [] (Reply.tool_call "call_1" "read_file" "{bad json") []
                eq_refl eq_refl eq_refl) as (more & Hrun).
    unfold Sample.openai. rewrite Hrun. cbn [app].
    apply elem_of_cons. right. apply elem_of_cons. by left.
  - eexists. by vm_compute.
Qed.

(** C1, amended.  On the primary (Abacus) provider, for every backend response
    that selects tool calls, [complete] never evaluates anything as code and
    reads the arguments of each call with [json.loads].  When [json.loads]
    decodes the arguments of every call, [complete] returns with the decoded
    values, whatever they are: an object, a list, a number, and also the
    floats that the texts NaN, Infinity and -Infinity stand for, which are no
    JSON.  When [json.loads] fails on the arguments of some call, [complete]
    fails with the error of [json.loads] for one of the calls, raised again
    as it is: a [JSONDecodeError] for a malformed text, the [ValueError] of
    [int] for an integer of more digits than the interpreter converts, or a
    [RecursionError] for a nesting deeper than the interpreter has room for;
    none of them is an error kind of the taxonomy. *)
Theorem abacus_complete_parses_json backend py_eval py client default_model
    messages tools model kwargs t response choice rest tool_calls :
  let self := AbacusProvider client default_model in
  let run := complete backend py_eval py self messages tools model kwargs t in
  backend client (request_kwargs self messages tools model kwargs) = Ok response ->
  resp_choices response = choice :: rest ->
  selected_tool_calls (choice_message choice) = Some tool_calls ->
  (exists new, snd run = t ++ new /\ Forall not_eval new)
  /\ (forall values,
        Forall2 (fun tc v => json_loads py (fn_arguments (tc_function tc)) = Ok v)
          tool_calls values ->
        fst run
        = Ok (PDict [("content",
                      PStr (default "" (msg_content (choice_message choice))));
                     ("tool_calls",
                      PList (zip_with tool_call_dict tool_calls values))]))
  /\ (forall tool_call e,
        tool_call ∈ tool_calls ->
        json_loads py (fn_arguments (tc_function tool_call)) = Raise e ->
        exists tc e',
          tc ∈ tool_calls
          /\ json_loads py (fn_arguments (tc_function tc)) = Raise e'
          /\ fst run = Raise e'
          /\ decoder_error py e'
          /\ str_in_list (exn_class e') error_taxonomy = false)
  /\ json_loads py "NaN" = Ok (PFloat nan)
  /\ json_loads py "Infinity" = Ok (PFloat infinity)
  /\ json_loads py "-Infinity" = Ok (PFloat neg_infinity).
Proof.
  intros self run Hreply Hchoices Hsel. subst run self. rewrite complete_run.
  cbn [fst snd]. split; [| split; [| split; [| by vm_compute]]].
  - eexists. split; [reflexivity | apply abacus_complete_never_evals].
  - intros values Hvalues. unfold complete_outcome.
    cbn [provider_client provider_label calls_outcome].
    rewrite Hreply, Hchoices, Hsel, (parse_calls_all _ _ _ Hvalues).
    cbn [fst snd]. unfold result_dict. by rewrite content_or_empty_default.
  - intros tool_call e Hin Hraise. unfold complete_outcome.
    cbn [provider_client provider_label calls_outcome].
    rewrite Hreply, Hchoices, Hsel.
    destruct (parse_calls_some_raise _ _ _ _ Hin Hraise)
      as (e' & -> & tc & Htc_in & Htc).
    exists tc, e'. cbn [fst snd].
    pose proof (json_loads_raises _ _ _ Htc) as Herror.
    repeat split; try done.
    destruct (decoder_error_class _ _ Herror) as [_ [-> | [-> | ->]]]; reflexivity.
Qed.

Lemma abacus_complete_parses_json_witness :
  let run reply :=
    fst (complete (Reply.always (Ok reply)) Reply.python_eval Sample.python
           Sample.abacus Reply.user_turn PNone PNone ∅ []) in
  json_loads Sample.python "{bad json"
    = Raise (JSONDecodeError "Expecting property name enclosed in double quotes")
  /\ (exists e, run Reply.bad_json = Raise e /\ decoder_error Sample.python e)
  /\ json_loads Sample.python Reply.json_object_text = Ok (PDict [("path", PStr "/tmp")])
  /\ run Reply.json_object
     = Ok (PDict [("content", PStr "");
                  ("tool_calls",
                   PList [tool_call_dict
                            (Reply.tool_call "call_1" "read_file"
                               Reply.json_object_text)
                            (PDict [("path", PStr "/tmp")])])]).
Proof.
  cbv zeta. split; [by vm_compute |]. split; [| split; [by vm_compute |]].
  - destruct (proj1 (proj2 (proj2
      (abacus_complete_parses_json (Reply.always (Ok Reply.bad_json))
         Reply.python_eval Sample.python
         {| api_key := PStr "abacus-key";
            base_url := Some (PStr "https://api.abacus.ai/v1") |}
         (PStr "claude-3-5-sonnet") Reply.user_turn PNone PNone ∅ [] Reply.bad_json
         {| choice_message :=
              {| msg_content := None;
                 msg_tool_calls :=
                   Some [Reply.tool_call "call_1" "read_file" "{bad json"] |} |} []
         [Reply.tool_call "call_1" "read_file" "{bad json"]
         eq_refl eq_refl eq_refl)))
      (Reply.tool_call "call_1" "read_file" "{bad json")
      (JSONDecodeError "Expecting property name enclosed in double quotes")
      ltac:(apply elem_of_cons; by left) ltac:(by vm_compute))
      as (tc & e & _ & _ & Hrun & Herror & _).
    exists e. split; [exact Hrun | exact Herror].
  - refine (proj1 (proj2
      (abacus_complete_parses_json (Reply.always (Ok Reply.json_object))
         Reply.python_eval Sample.python
         {| api_key := PStr "abacus-key";
            base_url := Some (PStr "https://api.abacus.ai/v1") |}
         (PStr "claude-3-5-sonnet") Reply.user_turn PNone PNone ∅ []
         Reply.json_object
         {| choice_message :=
              {| msg_content := None;
                 msg_tool_calls :=
                   Some [Reply.tool_call "call_1" "read_file"
                           Reply.json_object_text] |} |} []
         [Reply.tool_call "call_1" "read_file" Reply.json_object_text]
         eq_refl eq_refl eq_refl))
      [PDict [("path", PStr "/tmp")]] _).
    constructor; [by vm_compute | constructor].
Defined.

(** * Further properties *)

(** ** The request of [complete] *)


Lemma evaluated_app t1 t2 : evaluated (t1 ++ t2) = evaluated t1 ++ evaluated t2.
Proof. apply flat_map_app. Qed.

Lemma log_records_app t1 t2 : log_records (t1 ++ t2) = log_records t1 ++ log_records t2.
Proof. apply flat_map_app. Qed.



Lemma evaluated_error_log label e : evaluated (error_log label e) = [].
Proof. unfold error_log. by destruct (is_Exception e). Qed.








(** ** Runs that do not come to [eval] *)

(** When [complete] does not get as far as [eval], the loop over the tool
    calls is the one of [json.loads]. *)
Lemma calls_outcome_no_eval py_eval py self messages tools model kwargs
    response choice rest tool_calls :
  reaches_eval self (Ok response) = false ->
  resp_choices response = choice :: rest ->
  selected_tool_calls (choice_message choice) = Some tool_calls ->
  calls_outcome py_eval py self messages tools model kwargs response choice tool_calls
  = ([], match parse_calls (json_loads py) tool_calls with
         | Ok entries => Parsed entries
         | Raise e => Failed e
         end).
Proof.
  intros Hreach Hchoices Hsel. destruct self as [client dm | client dm]; [done |].
  exfalso. cbn in Hreach. rewrite Hchoices, Hsel in Hreach.
  destruct (selected_tool_calls_nonempty _ _ Hsel) as (tc & tcs & ->). done.
Qed.

Lemma complete_outcome_no_eval backend py_eval py self messages tools model kwargs :
  let client := provider_client self in
  let request := request_kwargs self messages tools model kwargs in
  reaches_eval self (backend client request) = false ->
  complete_outcome backend py_eval py self messages tools model kwargs
  = plain_outcome (provider_label self) py client request (backend client request).
Proof.
  intros client request Hreach. unfold complete_outcome, plain_outcome.
  fold client request.
  destruct (backend client request) as [response | e]; [| reflexivity].
  destruct (resp_choices response) as [| choice rest] eqn:Hchoices; [reflexivity |].
  destruct (selected_tool_calls (choice_message choice)) as [tool_calls |] eqn:Hsel;
    [| reflexivity].
  rewrite (calls_outcome_no_eval _ _ _ _ _ _ _ _ _ _ _ Hreach Hchoices Hsel).
  cbn [fst snd app]. by destruct (parse_calls _ _).
Qed.

(** X3. Of the caller's options only [temperature] and [max_tokens] reach
    the backend: the request has no key beyond the six the code writes, and
    two option bags that agree on those two give the same request.  They
    give the same run of [complete] as well, outcome and trace alike, unless
    the secondary provider comes to evaluate the arguments of a tool call,
    which can read the options: a timeout or any other option has no effect
    otherwise. *)
Theorem complete_ignores_other_options backend py_eval py self messages tools model
    kwargs kwargs' t :
  kwargs !! "temperature" = kwargs' !! "temperature" ->
  kwargs !! "max_tokens" = kwargs' !! "max_tokens" ->
  let request := request_kwargs self messages tools model kwargs in
  request = request_kwargs self messages tools model kwargs'
  /\ (forall key, key ∉ request_keys -> request !! key = None)
  /\ (reaches_eval self (backend (provider_client self) request) = false ->
      complete backend py_eval py self messages tools model kwargs t
      = complete backend py_eval py self messages tools model kwargs' t).
Proof.
  intros Htemperature Hmax request.
  assert (Hrequest : request = request_kwargs self messages tools model kwargs').
  { unfold request, request_kwargs, completion_kwargs_of, dict_get.
    by rewrite Htemperature, Hmax. }
  split; [exact Hrequest |]. split.
  - intros key Hkey. unfold request_keys in Hkey.
    rewrite !not_elem_of_cons in Hkey. destruct Hkey as (? & ? & ? & ? & ? & ? & _).
    unfold request, request_kwargs, completion_kwargs_of.
    destruct (truthy tools); by simplify_map_eq.
  - intros Hreach. rewrite !complete_run.
    rewrite (complete_outcome_no_eval backend py_eval py self messages tools model
               kwargs Hreach).
    rewrite (complete_outcome_no_eval backend py_eval py self messages tools model
               kwargs') by (by rewrite <- Hrequest).
    fold request. by rewrite <- Hrequest.
Qed.

Lemma complete_ignores_other_options_witness :
  complete (Reply.always (Ok Reply.json_object)) Reply.python_eval Sample.python
    Sample.abacus Reply.user_turn PNone PNone {[ "timeout" := PInt 30 ]} []
  = complete (Reply.always (Ok Reply.json_object)) Reply.python_eval Sample.python
      Sample.abacus Reply.user_turn PNone PNone ∅ [].
Proof.
  exact (proj2 (proj2 (complete_ignores_other_options
                  (Reply.always (Ok Reply.json_object)) Reply.python_eval Sample.python
                  Sample.abacus Reply.user_turn PNone PNone
                  {[ "timeout" := PInt 30 ]} ∅ [] eq_refl eq_refl)) eq_refl).
Defined.

(** On the secondary provider the evaluated text reads the options: the
    arguments [kwargs] evaluate to them. *)
Example openai_eval_reads_options :
  let run kwargs :=
    fst (complete (Reply.always (Ok Reply.reads_kwargs)) Reply.python_eval Sample.python
           Sample.openai Reply.user_turn PNone PNone kwargs []) in
  run {[ "timeout" := PInt 30 ]} <> run ∅.
Proof. cbv zeta. by vm_compute. Qed.

(** ** The tool calls of [complete] on the primary provider *)

Lemma parse_calls_first_error parse before tool_call after e :
  Forall (fun tc => exists v, parse (fn_arguments (tc_function tc)) = Ok v) before ->
  parse (fn_arguments (tc_function tool_call)) = Raise e ->
  parse_calls parse (before ++ tool_call :: after) = Raise e.
Proof.
  intros Hbefore Hraise. induction Hbefore as [| tc tcs (v & Hv) _ IH].
  - cbn. by rewrite Hraise.
  - cbn. by rewrite Hv, IH.
Qed.

(** X4. The primary provider returns all the selected tool calls or none.
    When [json.loads] fails on the arguments of a call, [complete] raises the
    error of the first such call, in the order of the response, and returns
    no result, however many calls before it were decoded and whatever comes
    after; the trace holds the request and the error record, and no record
    of the response. *)
Theorem complete_first_parse_error backend py_eval py client default_model
    messages tools model kwargs t response choice rest before tool_call after e :
  let self := AbacusProvider client default_model in
  let request := request_kwargs self messages tools model kwargs in
  backend client request = Ok response ->
  resp_choices response = choice :: rest ->
  msg_tool_calls (choice_message choice) = Some (before ++ tool_call :: after) ->
  Forall (fun tc => exists v, json_loads py (fn_arguments (tc_function tc)) = Ok v)
    before ->
  json_loads py (fn_arguments (tc_function tool_call)) = Raise e ->
  complete backend py_eval py self messages tools model kwargs t
  = (Raise e,
     t ++ [EvCreate client request; EvLog ERROR [FLit "Abacus API error: "; FExn e]]).
Proof.
  intros self request Hreply Hchoices Hcalls Hbefore Hraise.
  subst self. rewrite complete_run. unfold complete_outcome.
  cbn [provider_client provider_label calls_outcome]. fold request.
  rewrite Hreply, Hchoices. unfold selected_tool_calls. rewrite Hcalls.
  destruct (before ++ tool_call :: after) as [| tc tcs] eqn:Hlist;
    [by destruct before |].
  rewrite <- Hlist. rewrite (parse_calls_first_error _ _ _ _ _ Hbefore Hraise).
  cbn [fst snd app]. unfold error_log.
  by destruct (decoder_error_class _ _ (json_loads_raises _ _ _ Hraise)) as [-> _].
Qed.

Lemma complete_first_parse_error_witness :
  let good := Reply.tool_call "call_1" "read_file" Reply.json_object_text in
  let bad := Reply.tool_call "call_2" "read_file" "{bad json" in
  let reply := Reply.response (Some "text") (Some [good; bad; good]) in
  json_loads Sample.python Reply.json_object_text = Ok (PDict [("path", PStr "/tmp")])
  /\ fst (complete (Reply.always (Ok reply)) Reply.python_eval Sample.python
            Sample.abacus Reply.user_turn PNone PNone ∅ [])
     = Raise (JSONDecodeError "Expecting property name enclosed in double quotes").
Proof.
  cbv zeta. split; [by vm_compute |].
  refine (f_equal fst
            (complete_first_parse_error
               (Reply.always
                  (Ok (Reply.response (Some "text")
                         (Some [Reply.tool_call "call_1" "read_file"
                                  Reply.json_object_text;
                                Reply.tool_call "call_2" "read_file" "{bad json";
                                Reply.tool_call "call_1" "read_file"
                                  Reply.json_object_text]))))
               Reply.python_eval Sample.python
               {| api_key := PStr "abacus-key";
                  base_url := Some (PStr "https://api.abacus.ai/v1") |}
               (PStr "claude-3-5-sonnet") Reply.user_turn PNone PNone ∅ [] _ _ []
               [Reply.tool_call "call_1" "read_file" Reply.json_object_text]
               (Reply.tool_call "call_2" "read_file" "{bad json")
               [Reply.tool_call "call_1" "read_file" Reply.json_object_text]
               _ eq_refl eq_refl eq_refl _ _)).
  - constructor; [| constructor]. eexists. by vm_compute.
  - by vm_compute.
Defined.

(** X5. When [json.loads] decodes the arguments of every selected tool
    call, the result of [complete] on the primary provider lists one entry
    per call, in the order of the response, each with the call's own id and
    function name and the decoded arguments; nothing is dropped, merged or
    reordered, and ids and names are not checked for being distinct. *)
Theorem complete_keeps_calls backend py_eval py client default_model
    messages tools model kwargs t response choice rest tool_calls values :
  let self := AbacusProvider client default_model in
  backend client (request_kwargs self messages tools model kwargs) = Ok response ->
  resp_choices response = choice :: rest ->
  msg_tool_calls (choice_message choice) = Some tool_calls ->
  Forall2 (fun tc v => json_loads py (fn_arguments (tc_function tc)) = Ok v)
    tool_calls values ->
  let entries :=
    zip_with
      (fun tc v =>
         PDict [("id", PStr (tc_id tc));
                ("function",
                 PDict [("name", PStr (fn_name (tc_function tc))); ("arguments", v)])])
      tool_calls values in
  fst (complete backend py_eval py self messages tools model kwargs t)
  = Ok (PDict [("content", PStr (default "" (msg_content (choice_message choice))));
               ("tool_calls", PList entries)])
  /\ length entries = length tool_calls.
Proof.
  intros self Hreply Hchoices Hcalls Hvalues entries. subst entries self.
  split.
  - rewrite complete_run. cbn [fst]. unfold complete_outcome.
    cbn [provider_client provider_label calls_outcome].
    rewrite Hreply, Hchoices. unfold selected_tool_calls. rewrite Hcalls.
    unfold result_dict. rewrite content_or_empty_default.
    destruct tool_calls as [| tc tcs]; [by inversion Hvalues |].
    by rewrite (parse_calls_all _ _ _ Hvalues).
  - rewrite length_zip_with. apply Forall2_length in Hvalues. lia.
Qed.

Lemma complete_keeps_calls_witness :
  let first := Reply.tool_call "call_1" "read_file" Reply.json_object_text in
  let reply := Reply.response None (Some [first; first]) in
  let entry :=
    PDict [("id", PStr "call_1");
           ("function",
            PDict [("name", PStr "read_file");
                   ("arguments", PDict [("path", PStr "/tmp")])])] in
  json_loads Sample.python Reply.json_object_text = Ok (PDict [("path", PStr "/tmp")])
  /\ fst (complete (Reply.always (Ok reply)) Reply.python_eval Sample.python
            Sample.abacus Reply.user_turn PNone PNone ∅ [])
     = Ok (PDict [("content", PStr ""); ("tool_calls", PList [entry; entry])]).
Proof.
  cbv zeta. split; [by vm_compute |].
  refine (proj1 (complete_keeps_calls
            (Reply.always
               (Ok (Reply.response None
                      (Some [Reply.tool_call "call_1" "read_file"
                               Reply.json_object_text;
                             Reply.tool_call "call_1" "read_file"
                               Reply.json_object_text]))))
            Reply.python_eval Sample.python
            {| api_key := PStr "abacus-key";
               base_url := Some (PStr "https://api.abacus.ai/v1") |}
            (PStr "claude-3-5-sonnet") Reply.user_turn PNone PNone ∅ [] _ _ []
            [Reply.tool_call "call_1" "read_file" Reply.json_object_text;
             Reply.tool_call "call_1" "read_file" Reply.json_object_text]
            [PDict [("path", PStr "/tmp")]; PDict [("path", PStr "/tmp")]]
            eq_refl eq_refl eq_refl _)).
  constructor; [by vm_compute |]. constructor; [by vm_compute | constructor].
Defined.

(** ** What is evaluated as code *)

Lemma evaluated_eval text trace :
  evaluated (EvEval text :: trace) = text :: evaluated trace.
Proof. reflexivity. Qed.

Lemma evaluated_create client request trace :
  evaluated (EvCreate client request :: trace) = evaluated trace.
Proof. reflexivity. Qed.

(** The loop of the secondary provider for an [eval] that leaves the frame
    alone and does not look at it. *)
Lemma evaluate_calls_pure py_eval parse locals entries tool_calls :
  (forall tool_call frame, tool_call ∈ tool_calls ->
     py_eval (fn_arguments (tc_function tool_call)) frame
     = Evaluates (parse (fn_arguments (tc_function tool_call)))) ->
  evaluate_calls py_eval locals entries tool_calls
  = (map EvEval (parsed_texts parse tool_calls),
     match parse_calls parse tool_calls with
     | Ok new => Parsed (entries ++ new)
     | Raise e => Failed e
     end).
Proof.
  revert entries. induction tool_calls as [| tool_call rest IH]; intros entries Hpure.
  - cbn. by rewrite app_nil_r.
  - cbn [evaluate_calls parsed_texts parse_calls map].
    rewrite (Hpure tool_call _ ltac:(apply elem_of_cons; by left)).
    destruct (parse (fn_arguments (tc_function tool_call))) as [arguments | e];
      [| reflexivity].
    rewrite IH by (intros tc frame Hin; apply Hpure, elem_of_cons; by right).
    cbn [fst snd]. destruct (parse_calls parse rest); [| reflexivity].
    by rewrite <- app_assoc.
Qed.

Lemma evaluated_map_eval texts : evaluated (map EvEval texts) = texts.
Proof.
  induction texts as [| text texts IH]; [done |].
  cbn [map]. by rewrite evaluated_eval, IH.
Qed.

(** X6. The secondary (OpenAI) provider evaluates nothing when the backend
    fails or selects no tool.  When tool calls are selected, the argument
    text of the first of them is handed to [eval], whatever it is.  And when
    [eval] comes, for the argument text of every selected call, to a value or
    an error without touching the frame or looking at it, as it does for a
    display of literals, the texts are evaluated one after the other in the
    order of the response, up to and including the first on which [eval]
    raises, and nothing else is; [complete] then returns one entry per call
    with the value of its arguments, or raises that first error. *)
Theorem openai_complete_evaluates backend py_eval py client default_model
    messages tools model kwargs t :
  let self := OpenAIProvider client default_model in
  let request := request_kwargs self messages tools model kwargs in
  let run := complete backend py_eval py self messages tools model kwargs t in
  let calls := answered_tool_calls (backend client request) in
  (calls = [] -> evaluated (snd run) = evaluated t)
  /\ (forall tool_call rest,
        calls = tool_call :: rest ->
        exists more,
          evaluated (snd run)
          = evaluated t ++ fn_arguments (tc_function tool_call) :: more)
  /\ (forall parse,
        (forall tool_call frame, tool_call ∈ calls ->
           py_eval (fn_arguments (tc_function tool_call)) frame
           = Evaluates (parse (fn_arguments (tc_function tool_call)))) ->
        evaluated (snd run) = evaluated t ++ parsed_texts parse calls
        /\ (forall response choice rest,
              backend client request = Ok response ->
              resp_choices response = choice :: rest ->
              fst run
              = match parse_calls parse calls with
                | Ok entries =>
                  Ok (PDict [("content",
                              PStr (default "" (msg_content (choice_message choice))));
                             ("tool_calls", PList entries)])
                | Raise e => Raise e
                end)).
Proof.
  intros self request run calls. subst run calls self.
  rewrite complete_run. cbn [fst snd]. rewrite evaluated_app.
  unfold complete_outcome, answered_tool_calls.
  cbn [provider_client provider_label calls_outcome]. fold request.
  destruct (backend client request) as [response | e];
    [| cbn [snd]; rewrite evaluated_create, evaluated_error_log, app_nil_r;
       repeat split; try done; by rewrite app_nil_r].
  destruct (resp_choices response) as [| choice rest] eqn:Hchoices.
  { cbn [snd]. rewrite evaluated_create, evaluated_error_log, app_nil_r.
    repeat split; try done; [by rewrite app_nil_r |].
    intros response' choice' rest' [= <-] Hchoices'. congruence. }
  destruct (selected_tool_calls (choice_message choice)) as [tool_calls |] eqn:Hsel;
    cbn [default from_option id].
  - destruct (selected_tool_calls_nonempty _ _ Hsel) as (tc & tcs & ->).
    split; [done |]. split.
    + intros tool_call rest' [= <- <-]. cbn [evaluate_calls].
      destruct (py_eval _ _) as [[arguments | e] | effects ending]; cbn [fst snd].
      * destruct (snd (evaluate_calls _ _ _ _)); cbn [snd];
          rewrite evaluated_create, ?evaluated_app, evaluated_eval; eauto.
      * cbn [app]. rewrite evaluated_create, evaluated_eval. eauto.
      * rewrite evaluated_create, evaluated_eval. eauto.
    + intros parse Hpure.
      rewrite (evaluate_calls_pure _ parse _ _ _ Hpure). cbn [fst snd app].
      split.
      * destruct (parse_calls parse (tc :: tcs)); cbn [snd];
          rewrite evaluated_create, evaluated_app, evaluated_map_eval,
            ?evaluated_error_log, ?app_nil_r;
          reflexivity.
      * intros response' choice' rest' [= <-] Hchoices'.
        rewrite Hchoices in Hchoices'. injection Hchoices' as <- _.
        destruct (parse_calls parse (tc :: tcs)); cbn [fst]; [| reflexivity].
        unfold result_dict. by rewrite content_or_empty_default.
  - cbn [snd evaluated flat_map app]. rewrite app_nil_r.
    split; [done |]. split; [done |]. intros parse _.
    split; [by rewrite app_nil_r |].
    intros response' choice' rest' [= <-] Hchoices'.
    rewrite Hchoices in Hchoices'. injection Hchoices' as <- _. cbn [fst parse_calls].
    unfold result_dict. by rewrite content_or_empty_default.
Qed.

Lemma openai_complete_evaluates_witness :
  let first := Reply.tool_call "call_1" "read_file" "{'path': '/tmp'}" in
  let bad := Reply.tool_call "call_2" "read_file" "{bad json" in
  let reply := Reply.response None (Some [first; bad; first]) in
  evaluated
    (snd (complete (Reply.always (Ok reply)) Reply.python_eval Sample.python
            Sample.openai Reply.user_turn PNone PNone ∅ []))
  = ["{'path': '/tmp'}"; "{bad json"].
Proof.
  cbv zeta.
  refine (proj1 (proj2 (proj2
    (openai_complete_evaluates
       (Reply.always
          (Ok (Reply.response None
                 (Some [Reply.tool_call "call_1" "read_file" "{'path': '/tmp'}";
                        Reply.tool_call "call_2" "read_file" "{bad json";
                        Reply.tool_call "call_1" "read_file" "{'path': '/tmp'}"]))))
       Reply.python_eval Sample.python
       {| api_key := PStr "openai-key"; base_url := None |}
       (PStr "gpt-4-turbo-preview") Reply.user_turn PNone PNone ∅ []))
    (fun text =>
       if String.eqb text "{'path': '/tmp'}" then Ok (PDict [("path", PStr "/tmp")])
       else Raise (exception "SyntaxError" "invalid syntax")) _)).
  intros tool_call frame Hin. cbn in Hin.
  rewrite !elem_of_cons in Hin.
  destruct Hin as [-> | [-> | [-> | Hin]]]; [reflexivity .. |].
  by apply elem_of_nil in Hin.
Defined.

(** X7. The primary (Abacus) provider never calls [eval]: whatever the
    backend answers, no text is evaluated during [complete], and the run
    does not depend on what [eval] would do. *)
Theorem abacus_complete_evaluates_nothing backend py_eval py_eval' py client
    default_model messages tools model kwargs t :
  let self := AbacusProvider client default_model in
  evaluated (snd (complete backend py_eval py self messages tools model kwargs t))
  = evaluated t
  /\ complete backend py_eval py self messages tools model kwargs t
     = complete backend py_eval' py self messages tools model kwargs t.
Proof.
  intros self. subst self. split; [| by rewrite !complete_run].
  rewrite complete_run. cbn [snd]. rewrite evaluated_app.
  rewrite <- (app_nil_r (evaluated t)) at 2. f_equal.
  unfold complete_outcome.
  cbn [provider_client provider_label calls_outcome].
  repeat destruct_match; cbn [fst snd app];
    rewrite ?evaluated_create, ?evaluated_error_log; reflexivity.
Qed.

(** ** The diagnostics of [complete] *)

Lemma str_take_len n s : str_len (str_take n s) <= n.
Proof.
  revert n. induction s as [| c s IH]; intros n; cbn [str_take str_len]; [lia |].
  destruct (is_continuation c) eqn:Hc.
  - cbn [str_len]. rewrite Hc. apply IH.
  - destruct n as [| n]; cbn [str_len]; [lia |]. rewrite Hc. specialize (IH n). lia.
Qed.

Lemma str_take_prefix n s : String.prefix (str_take n s) s = true.
Proof.
  revert n. induction s as [| c s IH]; intros n; cbn [str_take]; [done |].
  destruct (is_continuation c).
  - cbn. destruct (ascii_dec c c); [apply IH | done].
  - destruct n as [| n]; [done |]. cbn. destruct (ascii_dec c c); [apply IH | done].
Qed.

Lemma log_records_error_log label e :
  log_records (error_log label e)
  = if is_Exception e then [(ERROR, [FLit (label +:+ " API error: "); FExn e])] else [].
Proof. unfold error_log. by destruct (is_Exception e). Qed.

Lemma log_records_create client request trace :
  log_records (EvCreate client request :: trace) = log_records trace.
Proof. reflexivity. Qed.

(** X8. As long as [complete] does not come to [eval], so on the primary
    provider, and on the secondary one when the backend fails or selects no
    tool, it writes an error record exactly when it raises an error that
    derives from [Exception]: one record, naming the provider and carrying
    the exception raised. An error that does not derive from [Exception],
    such as a cancellation, passes without a record; a run that raises
    writes no other record, and a run that returns writes none at error
    level. *)
Theorem complete_error_record backend py_eval py self messages tools model kwargs t :
  reaches_eval self
    (backend (provider_client self) (request_kwargs self messages tools model kwargs))
  = false ->
  exists records,
    log_records (snd (complete backend py_eval py self messages tools model kwargs t))
    = log_records t ++ records
    /\ match fst (complete backend py_eval py self messages tools model kwargs t) with
       | Raise e =>
         records
         = if is_Exception e
           then [(ERROR, [FLit (provider_label self +:+ " API error: "); FExn e])]
           else []
       | Ok _ => Forall (fun record => fst record = INFO) records
       end.
Proof.
  intros Hreach. rewrite complete_run. cbn [fst snd]. eexists.
  split; [apply log_records_app |].
  rewrite (complete_outcome_no_eval _ _ _ _ _ _ _ _ Hreach). unfold plain_outcome.
  destruct (backend _ _) as [response | e]; cbn [fst snd];
    [| by rewrite log_records_create, log_records_error_log].
  destruct (resp_choices response) as [| choice rest]; cbn [fst snd];
    [by rewrite log_records_create, log_records_error_log |].
  destruct (selected_tool_calls (choice_message choice)) as [tool_calls |];
    cbn [fst snd]; [| repeat constructor].
  destruct (parse_calls (json_loads py) tool_calls) as [entries | e]; cbn [fst snd];
    [repeat constructor | by rewrite log_records_create, log_records_error_log].
Qed.

Lemma complete_error_record_witness :
  let e := JSONDecodeError "Expecting property name enclosed in double quotes" in
  reaches_eval Sample.abacus (Ok Reply.bad_json) = false
  /\ log_records
       (snd (complete (Reply.always (Ok Reply.bad_json)) Reply.python_eval
               Sample.python Sample.abacus Reply.user_turn PNone PNone ∅ []))
     = [(ERROR, [FLit "Abacus API error: "; FExn e])].
Proof.
  cbv zeta. split; [reflexivity |].
  destruct (complete_error_record (Reply.always (Ok Reply.bad_json)) Reply.python_eval
              Sample.python Sample.abacus Reply.user_turn PNone PNone ∅ [] eq_refl)
    as (records & Hlog & Hrecords).
  change (fst (complete (Reply.always (Ok Reply.bad_json)) Reply.python_eval
                 Sample.python Sample.abacus Reply.user_turn PNone PNone ∅ []))
    with (Raise (A := pyvalue)
            (JSONDecodeError "Expecting property name enclosed in double quotes"))
    in Hrecords.
  rewrite Hlog, Hrecords. reflexivity.
Defined.

(** On the secondary provider an evaluated text can write to the log: here
    a run that returns leaves a record at error level. *)
Example openai_eval_logs :
  let run :=
    complete (Reply.always (Ok Reply.logs)) Reply.python_eval Sample.python
      Sample.openai Reply.user_turn PNone PNone ∅ [] in
  (exists result, fst run = Ok result)
  /\ (ERROR, [FLit "x"]) ∈ log_records (snd run).
Proof.
  cbv zeta. split; [eexists; by vm_compute |].
  vm_compute. apply elem_of_cons. by left.
Qed.

(** X9. As long as [complete] does not come to [eval], a run that returns
    writes the response record, which holds the first 100 characters of the
    content while the result holds all of it, and after it, exactly when tool
    calls were selected, one record with the names of their functions in the
    order of the response. *)
Theorem complete_response_record backend py_eval py self messages tools model kwargs t
    result :
  let answer :=
    backend (provider_client self) (request_kwargs self messages tools model kwargs) in
  let calls := answered_tool_calls answer in
  reaches_eval self answer = false ->
  fst (complete backend py_eval py self messages tools model kwargs t) = Ok result ->
  exists content entries shown,
    result = PDict [("content", PStr content); ("tool_calls", PList entries)]
    /\ log_records (snd (complete backend py_eval py self messages tools model kwargs t))
       = log_records t
         ++ (INFO, [FLit (provider_label self +:+ " response: "); FVal (PStr shown);
                    FLit "..."])
            :: match calls with
               | [] => []
               | _ =>
                 [(INFO,
                   [FLit "Tool calls: ";
                    FVal (PList (map (fun tc => PStr (fn_name (tc_function tc)))
                                   calls))])]
               end
    /\ shown = str_take 100 content
    /\ str_len shown <= 100
    /\ String.prefix shown content = true.
Proof.
  intros answer calls Hreach. subst calls answer.
  rewrite complete_run. cbn [fst snd].
  rewrite (complete_outcome_no_eval _ _ _ _ _ _ _ _ Hreach).
  unfold plain_outcome, answered_tool_calls.
  destruct (backend _ _) as [response | e]; [| done].
  destruct (resp_choices response) as [| choice rest]; [done |].
  destruct (selected_tool_calls (choice_message choice)) as [tool_calls |] eqn:Hsel;
    cbn [default from_option id].
  - destruct (parse_calls (json_loads py) tool_calls) as [entries | e]; [| done].
    intros [= <-]. do 3 eexists. split; [reflexivity |].
    split; [| split; [reflexivity | split; [apply str_take_len | apply str_take_prefix]]].
    rewrite log_records_app. cbn [snd].
    destruct (selected_tool_calls_nonempty _ _ Hsel) as (tc & tcs & ->).
    reflexivity.
  - intros [= <-]. do 3 eexists. split; [reflexivity |].
    split; [| split; [reflexivity | split; [apply str_take_len | apply str_take_prefix]]].
    by rewrite log_records_app.
Qed.

Lemma complete_response_record_witness :
  exists shown,
    log_records
      (snd (complete (Reply.always (Ok Reply.text_only)) Reply.python_eval Sample.python
              Sample.openai Reply.user_turn PNone PNone ∅ []))
    = [(INFO, [FLit "OpenAI response: "; FVal (PStr shown); FLit "..."])]
    /\ String.prefix shown "Hello" = true.
Proof.
  destruct (complete_response_record (Reply.always (Ok Reply.text_only))
              Reply.python_eval Sample.python Sample.openai Reply.user_turn PNone PNone
              ∅ [] (PDict [("content", PStr "Hello"); ("tool_calls", PList [])])
              eq_refl eq_refl)
    as (content & entries & shown & Hresult & Hlog & _ & _ & Hprefix).
  exists shown. injection Hresult as <- _. split; [exact Hlog | exact Hprefix].
Defined.

(** The record cuts the content by characters, whatever bytes they take. *)
Example response_record_counts_characters :
  let euro := String "226" (String "130" (String "172" EmptyString)) in
  str_len (euro +:+ euro +:+ "x") = 3
  /\ str_take 2 (euro +:+ euro +:+ "x") = euro +:+ euro
  /\ str_take 100 (euro +:+ "x") = euro +:+ "x".
Proof. cbv zeta. repeat split; by vm_compute. Qed.

(** ** The factory and the routing it sets up *)

(** X10. The default provider that [create_llm_setup] returns is the Abacus
    provider whenever the Abacus key is set and the constructor of the client
    accepts the address, also when the OpenAI key is set too, and the OpenAI
    provider when the Abacus key is not set; it is the provider registered
    under its key in the router. The Abacus provider is built with the
    configured key, with [ABACUS_BASE_URL] or else the Abacus address, and
    with [DEFAULT_MODEL] or else "claude-3-5-sonnet"; the OpenAI provider with
    its key and with [OPENAI_MODEL] or else "gpt-4-turbo-preview". *)
Theorem create_llm_setup_default_provider url_error config t :
  let abacus :=
    AbacusProvider
      {| api_key := dict_get_none config "ABACUS_API_KEY";
         base_url := Some (default (PStr "https://api.abacus.ai/v1")
                             (config !! "ABACUS_BASE_URL")) |}
      (default (PStr "claude-3-5-sonnet") (config !! "DEFAULT_MODEL")) in
  let openai :=
    OpenAIProvider
      {| api_key := dict_get_none config "OPENAI_API_KEY"; base_url := None |}
      (default (PStr "gpt-4-turbo-preview") (config !! "OPENAI_MODEL")) in
  (truthy (dict_get_none config "ABACUS_API_KEY") = true ->
   url_error (default (PStr "https://api.abacus.ai/v1") (config !! "ABACUS_BASE_URL"))
   = None ->
   exists router,
     fst (create_llm_setup url_error config t) = Ok (Some abacus, router)
     /\ providers router !! "abacus" = Some abacus)
  /\ (truthy (dict_get_none config "ABACUS_API_KEY") = false ->
      truthy (dict_get_none config "OPENAI_API_KEY") = true ->
      exists router,
        fst (create_llm_setup url_error config t) = Ok (Some openai, router)
        /\ providers router !! "openai" = Some openai
        /\ providers router !! "abacus" = None).
Proof.
  intros abacus openai. rewrite create_llm_setup_run. unfold setup_error.
  rewrite configured_abacus_lookup, configured_openai_lookup. split.
  - intros Ha Hurl. rewrite Ha. unfold abacus_url, dict_get. rewrite Hurl.
    cbn [fst orb]. eexists. split; [reflexivity |].
    cbn [providers ModelRouter_init]. by rewrite configured_abacus_lookup, Ha.
  - intros Ha Ho. rewrite Ha, Ho. cbn [fst orb]. eexists. split; [reflexivity |].
    cbn [providers ModelRouter_init].
    rewrite configured_abacus_lookup, configured_openai_lookup.
    by rewrite Ha, Ho.
Qed.

Lemma create_llm_setup_default_provider_witness :
  truthy (dict_get_none Config.both_keys "ABACUS_API_KEY") = true
  /\ Sample.url_error (PStr "https://api.abacus.ai/v1") = None
  /\ exists router,
       fst (create_llm_setup Sample.url_error Config.both_keys [])
       = Ok (Some Sample.abacus, router)
       /\ providers router !! "abacus" = Some Sample.abacus.
Proof.
  split; [reflexivity |]. split; [reflexivity |].
  exact (proj1 (create_llm_setup_default_provider Sample.url_error Config.both_keys [])
           eq_refl eq_refl).
Defined.

(** X11. Whenever [create_llm_setup] builds the Abacus provider, the default
    tier of the router it returns is the default model of that provider:
    both are [DEFAULT_MODEL], or "claude-3-5-sonnet" when it is not set. *)
Theorem create_llm_setup_default_tier url_error config t primary router :
  truthy (dict_get_none config "ABACUS_API_KEY") = true ->
  fst (create_llm_setup url_error config t) = Ok (Some primary, router) ->
  tier_model router "default" = Ok (provider_default_model primary)
  /\ provider_default_model primary
     = default (PStr "claude-3-5-sonnet") (config !! "DEFAULT_MODEL").
Proof.
  intros Ha. rewrite create_llm_setup_run.
  destruct (setup_error url_error config); [done |]. cbn [fst].
  rewrite configured_abacus_lookup, Ha. cbn [orb]. intros [= <- <-].
  unfold tier_model, getitem. by rewrite tier_default.
Qed.

Lemma create_llm_setup_default_tier_witness :
  exists primary router,
    fst (create_llm_setup Sample.url_error Sample.abacus_with_default_model [])
    = Ok (Some primary, router)
    /\ tier_model router "default" = Ok (PStr "claude-3-opus")
    /\ provider_default_model primary = PStr "claude-3-opus".
Proof.
  eexists _, _. split; [by vm_compute |].
  exact (create_llm_setup_default_tier Sample.url_error
           Sample.abacus_with_default_model [] _ _ eq_refl eq_refl).
Defined.

(** With no tier overridden, every model the router selects is one of the
    two built-in names. *)
Lemma default_tiers_models registry config task_type complexity t :
  default_tiers config ->
  exists m,
    fst (select_model (ModelRouter_init registry (Some config)) task_type complexity t)
    = Ok (PStr m)
    /\ (m = "claude-3-5-sonnet" \/ m = "claude-3-haiku").
Proof.
  intros (Hcomplex & Hfast & Hcoding & Hdefault).
  rewrite (proj1 (select_model_table _ _ _ _)).
  unfold tier_model, getitem, decision_table, first_match.
  repeat match goal with |- context [if ?b then _ else _] => destruct b end;
    rewrite ?tier_complex, ?tier_fast, ?tier_coding, ?tier_default;
    unfold dict_get; change (default ∅ (Some config)) with config;
    rewrite ?Hcomplex, ?Hfast, ?Hcoding, ?Hdefault; cbn [from_option];
    eexists; (split; [reflexivity |]); by (left + right).
Qed.

(** X12. When the Abacus key is set, the constructor of the client accepts
    the address and no tier is overridden, routing is closed:
    [create_llm_setup] succeeds, and for every task type and complexity the
    model that [select_model] picks is a string for which [get_provider]
    returns the default provider itself. *)
Theorem setup_routes_to_default_provider url_error config task_type complexity t t1 t2 :
  truthy (dict_get_none config "ABACUS_API_KEY") = true ->
  url_error (abacus_url config) = None ->
  default_tiers config ->
  exists primary router m,
    fst (create_llm_setup url_error config t) = Ok (Some primary, router)
    /\ fst (select_model router task_type complexity t1) = Ok (PStr m)
    /\ fst (get_provider router (PStr m) t2) = Ok (Some primary).
Proof.
  intros Ha Hurl Htiers. rewrite create_llm_setup_run. unfold setup_error.
  rewrite Ha, Hurl. cbn [fst].
  rewrite configured_abacus_lookup, Ha. cbn [orb].
  destruct (default_tiers_models (configured_providers config) config task_type
              complexity t1 Htiers) as (m & Hm & Hname).
  eexists _, _, m. split; [reflexivity |]. split; [exact Hm |].
  rewrite get_provider_run. cbn [fst providers ModelRouter_init].
  destruct Hname as [-> | ->];
    (change (str_contains "gpt" (str_lower _)) with false; cbn iota);
    by rewrite configured_abacus_lookup, Ha.
Qed.

Lemma setup_routes_to_default_provider_witness :
  truthy (dict_get_none Config.abacus_key "ABACUS_API_KEY") = true
  /\ Sample.url_error (abacus_url Config.abacus_key) = None
  /\ default_tiers Config.abacus_key
  /\ exists primary router m,
       fst (create_llm_setup Sample.url_error Config.abacus_key [])
       = Ok (Some primary, router)
       /\ fst (select_model router "research" 0.5%float []) = Ok (PStr m)
       /\ fst (get_provider router (PStr m) []) = Ok (Some primary).
Proof.
  split; [reflexivity |]. split; [reflexivity |]. split; [by repeat split |].
  apply (setup_routes_to_default_provider Sample.url_error Config.abacus_key
           "research" 0.5%float [] [] []);
    [reflexivity | reflexivity | by repeat split].
Defined.

(** X13. When only the OpenAI key is set and no tier is overridden,
    [create_llm_setup] succeeds with the OpenAI provider as default, yet
    routing is broken for every request: whatever the task type and the
    complexity, [select_model] picks a model for which [get_provider] returns
    [None]. *)
Theorem openai_only_routes_nowhere url_error config task_type complexity t t1 t2 :
  truthy (dict_get_none config "ABACUS_API_KEY") = false ->
  truthy (dict_get_none config "OPENAI_API_KEY") = true ->
  default_tiers config ->
  exists secondary router m,
    fst (create_llm_setup url_error config t) = Ok (Some secondary, router)
    /\ providers router !! "openai" = Some secondary
    /\ fst (select_model router task_type complexity t1) = Ok (PStr m)
    /\ fst (get_provider router (PStr m) t2) = Ok None.
Proof.
  intros Ha Ho Htiers. rewrite create_llm_setup_run. unfold setup_error.
  rewrite Ha. cbn [fst].
  rewrite configured_abacus_lookup, configured_openai_lookup, Ha, Ho. cbn [orb].
  destruct (default_tiers_models (configured_providers config) config task_type
              complexity t1 Htiers) as (m & Hm & Hname).
  eexists _, _, m. split; [reflexivity |].
  cbn [providers ModelRouter_init].
  split; [by rewrite configured_openai_lookup, Ho |].
  split; [exact Hm |].
  rewrite get_provider_run. cbn [fst providers ModelRouter_init].
  destruct Hname as [-> | ->];
    (change (str_contains "gpt" (str_lower _)) with false; cbn iota);
    by rewrite configured_abacus_lookup, Ha.
Qed.

Lemma openai_only_routes_nowhere_witness :
  truthy (dict_get_none Config.openai_key "ABACUS_API_KEY") = false
  /\ truthy (dict_get_none Config.openai_key "OPENAI_API_KEY") = true
  /\ default_tiers Config.openai_key
  /\ exists secondary router m,
       fst (create_llm_setup Sample.url_error Config.openai_key [])
       = Ok (Some secondary, router)
       /\ providers router !! "openai" = Some secondary
       /\ fst (select_model router "coding" 0.5%float []) = Ok (PStr m)
       /\ fst (get_provider router (PStr m) []) = Ok None.
Proof.
  split; [reflexivity |]. split; [reflexivity |]. split; [by repeat split |].
  apply (openai_only_routes_nowhere Sample.url_error Config.openai_key "coding"
           0.5%float [] [] []);
    [reflexivity | reflexivity | by repeat split].
Defined.

(** X14. The tiers are not checked. A tier override that is no string, such
    as [None], is what [select_model] returns whenever that tier is chosen,
    and [get_provider] raises [AttributeError] on it, as on every model that
    is no string. *)
Theorem non_string_tier_breaks_lookup registry config v task_type complexity t t' :
  config !! "MODEL_COMPLEX" = Some v ->
  (forall s, v <> PStr s) ->
  (0.7 <? complexity)%float = true ->
  let router := ModelRouter_init registry (Some config) in
  fst (select_model router task_type complexity t) = Ok v
  /\ get_provider router v t'
     = (Raise (exception "AttributeError" "object has no attribute 'lower'"), t').
Proof.
  intros Hv Hnot Hhigh router. subst router. split.
  - rewrite (proj1 (select_model_table _ _ _ _)).
    cbn [decision_table first_match]. rewrite Hhigh.
    unfold tier_model, getitem. rewrite tier_complex. unfold dict_get.
    change (default ∅ (Some config)) with config. by rewrite Hv.
  - unfold get_provider, py_lower. destruct v; try reflexivity. by destruct (Hnot s).
Qed.

Lemma non_string_tier_breaks_lookup_witness :
  let router := ModelRouter_init Sample.both (Some Config.complex_tier_none) in
  Config.complex_tier_none !! "MODEL_COMPLEX" = Some PNone
  /\ (0.7 <? 0.9)%float = true
  /\ fst (select_model router "analysis" 0.9%float []) = Ok PNone
  /\ fst (get_provider router PNone [])
     = Raise (exception "AttributeError" "object has no attribute 'lower'").
Proof.
  cbv zeta. split; [reflexivity |]. split; [reflexivity |].
  destruct (non_string_tier_breaks_lookup Sample.both Config.complex_tier_none
              PNone "analysis" 0.9%float [] [] eq_refl ltac:(done) eq_refl)
    as [Hselect Hlookup].
  split; [exact Hselect | exact (f_equal fst Hlookup)].
Defined.

(** ** The thresholds of [select_model] *)

(** A complexity below 0.3 is not above 0.7, by the order of binary64. *)
Lemma low_is_not_high c : (c <? 0.3)%float = true -> (0.7 <? c)%float = false.
Proof.
  rewrite !FloatAxioms.ltb_spec.
  change (Prim2SF 0.3) with (S754_finite false 5404319552844595 (-54)).
  change (Prim2SF 0.7) with (S754_finite false 6305039478318694 (-53)).
  destruct (Prim2SF c) as [s | s | | s m e]; unfold SFltb, SFcompare;
    try destruct s; try discriminate; try reflexivity.
  destruct (Z.compare_spec e (-54)); destruct (Z.compare_spec (-53) e);
    try lia; try discriminate; reflexivity.
Qed.

Lemma simple_is_not_coding task_type :
  str_in_list task_type ["simple"; "file_operation"; "read"] = true ->
  str_in_list task_type ["code"; "coding"; "programming"] = false.
Proof.
  cbn [str_in_list]. rewrite !orb_true_iff, !String.eqb_eq.
  intros [-> | [-> | [-> | ?]]]; done.
Qed.

(** X15. For the task types "simple", "file_operation" and "read" and every
    complexity below 0.3, negative ones included, [select_model] returns the
    fast-tier model and records the simple-task rule; and that record is
    written in no other case, so the fast tier is never chosen for another
    task type or from 0.3 upwards. *)
Theorem select_model_fast_tier self task_type complexity t :
  let simple_record :=
    EvLog INFO [FLit "Simple task ("; FFloat complexity; FLit "), using Haiku"] in
  ((complexity <? 0.3)%float = true ->
   str_in_list task_type ["simple"; "file_operation"; "read"] = true ->
   select_model self task_type complexity t
   = (tier_model self "fast", t ++ [simple_record]))
  /\ (snd (select_model self task_type complexity t) = t ++ [simple_record] ->
      (complexity <? 0.3)%float = true
      /\ str_in_list task_type ["simple"; "file_operation"; "read"] = true).
Proof.
  intros simple_record. subst simple_record. split.
  - intros Hlow Hsimple. unfold select_model.
    rewrite (low_is_not_high _ Hlow), (simple_is_not_coding _ Hsimple), Hlow, Hsimple.
    reflexivity.
  - unfold select_model.
    destruct (0.7 <? complexity)%float;
      [run_M; cbn [snd]; intros H; by apply app_inj_tail in H as [_ [=]] |].
    destruct (str_in_list task_type ["code"; "coding"; "programming"]);
      [run_M; cbn [snd]; intros H; by apply app_inj_tail in H as [_ [=]] |].
    destruct (complexity <? 0.3)%float;
      destruct (str_in_list task_type ["simple"; "file_operation"; "read"]);
      cbn [andb]; [done | | |];
      (destruct (str_in_list task_type ["analysis"; "research"; "planning"]);
       run_M; cbn [snd]; intros H; by apply app_inj_tail in H as [_ [=]]).
Qed.

Lemma select_model_fast_tier_witness :
  (-1 <? 0.3)%float = true
  /\ select_model (ModelRouter_init Sample.both (Some Sample.four_models)) "read"
       (-1)%float []
     = (Ok (PStr "model-b"),
        [EvLog INFO [FLit "Simple task ("; FFloat (-1)%float; FLit "), using Haiku"]]).
Proof.
  split; [reflexivity |].
  exact (proj1 (select_model_fast_tier
                  (ModelRouter_init Sample.both (Some Sample.four_models)) "read"
                  (-1)%float []) eq_refl eq_refl).
Defined.

(** X16. A complexity that passes neither threshold test, as 0.5 and also
    NaN do, leaves the choice to the task type alone: the coding types get
    the coding tier, the types "analysis", "research" and "planning" the
    complex tier, and every other type, the simple ones included, the default
    tier. *)
Theorem select_model_by_task_type self task_type complexity t :
  (0.7 <? complexity)%float = false ->
  (complexity <? 0.3)%float = false ->
  fst (select_model self task_type complexity t)
  = tier_model self
      (if str_in_list task_type ["code"; "coding"; "programming"] then "coding"
       else if str_in_list task_type ["analysis"; "research"; "planning"] then "complex"
       else "default")
  /\ (0.7 <? nan)%float = false /\ (nan <? 0.3)%float = false.
Proof.
  intros Hhigh Hlow. split; [| split; reflexivity].
  unfold select_model. rewrite Hhigh, Hlow. cbn [andb].
  destruct (str_in_list task_type ["code"; "coding"; "programming"]); [reflexivity |].
  by destruct (str_in_list task_type ["analysis"; "research"; "planning"]).
Qed.

Lemma select_model_by_task_type_witness :
  (0.7 <? nan)%float = false
  /\ (nan <? 0.3)%float = false
  /\ fst (select_model (ModelRouter_init Sample.both (Some Sample.four_models)) "simple"
            nan [])
     = Ok (PStr "model-d").
Proof.
  split; [reflexivity |]. split; [reflexivity |].
  exact (proj1 (select_model_by_task_type
                  (ModelRouter_init Sample.both (Some Sample.four_models)) "simple"
                  nan [] eq_refl eq_refl)).
Defined.

(** ** The tool tables *)

Section ToolTables.

Variables CORE AFFILIATE CONTENT PRODUCTPRAAT : list pyvalue.

(** The table of a category, empty for a name that is none. *)
Lemma get_tools_fold categories tools :
  fold_left
    (fun tools cat =>
       match TOOL_CATEGORIES CORE AFFILIATE CONTENT PRODUCTPRAAT !! cat with
       | Some table => tools ++ table
       | None => tools
       end)
    categories tools
  = tools
    ++ concat (map (fun cat =>
                      default []
                        (TOOL_CATEGORIES CORE AFFILIATE CONTENT PRODUCTPRAAT !! cat))
                 categories).
Proof.
  revert tools. induction categories as [| cat categories IH]; intros tools.
  - cbn. by rewrite app_nil_r.
  - cbn [fold_left map concat]. rewrite IH.
    destruct (TOOL_CATEGORIES CORE AFFILIATE CONTENT PRODUCTPRAAT !! cat);
      cbn [default from_option id]; by rewrite <- ?app_assoc.
Qed.

(** X17. For a list of category names that is not empty, [get_tools] returns
    the tables of the names it knows, one after the other in the order
    asked; an unknown name adds nothing and raises nothing, and nothing is
    removed: a name asked twice, or "all" beside "core", lists the same tools
    twice. So [get_tools] of two lists joined is the two results joined. *)
Theorem get_tools_concatenates first rest more :
  let table cat :=
    default [] (TOOL_CATEGORIES CORE AFFILIATE CONTENT PRODUCTPRAAT !! cat) in
  let get_tools := get_tools CORE AFFILIATE CONTENT PRODUCTPRAAT in
  get_tools (Some (first :: rest)) = concat (map table (first :: rest))
  /\ get_tools (Some ((first :: rest) ++ more))
     = get_tools (Some (first :: rest)) ++ concat (map table more)
  /\ table "core" = CORE /\ table "affiliate" = AFFILIATE
  /\ table "content" = CONTENT /\ table "productpraat" = PRODUCTPRAAT
  /\ table "all" = ((CORE ++ AFFILIATE) ++ CONTENT) ++ PRODUCTPRAAT
  /\ get_tools (Some ["all"; "core"])
     = (((CORE ++ AFFILIATE) ++ CONTENT) ++ PRODUCTPRAAT) ++ CORE
  /\ (forall cat,
        cat ∉ ["core"; "affiliate"; "content"; "productpraat"; "all"] ->
        table cat = []).
Proof.
  intros table get_tools. subst table get_tools.
  unfold get_tools. cbn [app]. rewrite !get_tools_fold. cbn [app].
  split; [reflexivity |].
  split; [cbn [map concat]; by rewrite map_app, concat_app, app_assoc |].
  unfold TOOL_CATEGORIES, ALL_TOOLS.
  repeat (split; [by simplify_map_eq; rewrite ?app_nil_r |]).
  intros cat Hcat. rewrite !not_elem_of_cons in Hcat.
  destruct Hcat as (? & ? & ? & ? & ? & _). by simplify_map_eq.
Qed.

(** X18. Asked for no category, by [None] or by an empty list, [get_tools]
    returns the default set, the core tools followed by the affiliate tools;
    asked for names of which none is a category it returns no tool at all.
    Given as [tools] to a provider's [complete], that empty result makes the
    request carry no [tools] and no [tool_choice]. *)
Theorem get_tools_default_and_unknown categories self messages model kwargs :
  let get_tools := get_tools CORE AFFILIATE CONTENT PRODUCTPRAAT in
  get_tools None = CORE ++ AFFILIATE
  /\ get_tools (Some []) = CORE ++ AFFILIATE
  /\ get_tools (Some ["core"; "affiliate"]) = CORE ++ AFFILIATE
  /\ (categories <> [] ->
      Forall (fun cat => cat ∉ ["core"; "affiliate"; "content"; "productpraat"; "all"])
        categories ->
      get_tools (Some categories) = []
      /\ request_kwargs self messages (PList (get_tools (Some categories))) model kwargs
           !! "tools" = None
      /\ request_kwargs self messages (PList (get_tools (Some categories))) model kwargs
           !! "tool_choice" = None).
Proof.
  intros get_tools. subst get_tools.
  split; [reflexivity |]. split; [reflexivity |].
  split.
  { unfold get_tools. rewrite get_tools_fold. unfold TOOL_CATEGORIES.
    cbn [map concat app]. simplify_map_eq. by rewrite (app_nil_r AFFILIATE). }
  intros Hnonempty Hunknown.
  assert (Hnone : get_tools CORE AFFILIATE CONTENT PRODUCTPRAAT (Some categories) = []).
  { assert (Htables :
      concat (map (fun cat =>
                     default []
                       (TOOL_CATEGORIES CORE AFFILIATE CONTENT PRODUCTPRAAT !! cat))
                categories) = []).
    { clear Hnonempty. induction Hunknown as [| c cs Hc _ IH]; [reflexivity |].
      cbn [map concat]. rewrite IH. rewrite !not_elem_of_cons in Hc.
      destruct Hc as (? & ? & ? & ? & ? & _).
      unfold TOOL_CATEGORIES. by simplify_map_eq. }
    destruct categories as [| cat categories]; [done |].
    unfold get_tools. by rewrite get_tools_fold, Htables. }
  rewrite Hnone. split; [reflexivity |].
  unfold request_kwargs, completion_kwargs_of. cbn [truthy]. by simplify_map_eq.
Qed.

End ToolTables.

Lemma get_tools_concatenates_witness :
  ("browser" ∉ ["core"; "affiliate"; "content"; "productpraat"; "all"])
  /\ (get_tools [PStr "core-tool"] [PStr "affiliate-tool"] [] []
        (Some ["affiliate"; "browser"; "core"])
      = [PStr "affiliate-tool"; PStr "core-tool"]).
Proof.
  assert (Hunknown : "browser" ∉ ["core"; "affiliate"; "content"; "productpraat"; "all"]).
  { rewrite !not_elem_of_cons. repeat split; try done. apply not_elem_of_nil. }
  split; [exact Hunknown |].
  destruct (get_tools_concatenates [PStr "core-tool"] [PStr "affiliate-tool"] [] []
              "affiliate" ["browser"; "core"] [])
    as (Hall & _ & Hcore & Haffiliate & _ & _ & _ & _ & Hnone).
  rewrite Hall. cbn [map concat]. by rewrite Hcore, Haffiliate, (Hnone _ Hunknown).
Defined.

Lemma get_tools_default_and_unknown_witness :
  get_tools [PStr "core-tool"] [PStr "affiliate-tool"] [] [] (Some ["browser"]) = []
  /\ get_tools [PStr "core-tool"] [PStr "affiliate-tool"] [] [] (Some [])
     = [PStr "core-tool"; PStr "affiliate-tool"].
Proof.
  destruct (get_tools_default_and_unknown [PStr "core-tool"] [PStr "affiliate-tool"]
              [] [] ["browser"] Sample.abacus Reply.user_turn PNone ∅)
    as (_ & Hempty & _ & Hunknown).
  split; [| exact Hempty].
  refine (proj1 (Hunknown ltac:(done) _)).
  repeat constructor. rewrite !not_elem_of_cons.
  repeat split; try done. apply not_elem_of_nil.
Defined.

(** ** The choices of a response *)

(** X19. [complete] reads the first choice of the response and nothing
    else of it: when two backends answer the request with responses whose
    first choices are the same, the two runs agree, outcome and trace alike,
    whatever further choices either response holds.  This holds as long as
    [complete] does not come to [eval], so on the primary provider, and on
    the secondary one when that first choice selects no tool; a text that
    [eval] evaluates can read the whole response. *)
Theorem complete_reads_first_choice backend backend' py_eval py self messages tools
    model kwargs t response response' choice rest rest' :
  let request := request_kwargs self messages tools model kwargs in
  backend (provider_client self) request = Ok response ->
  backend' (provider_client self) request = Ok response' ->
  resp_choices response = choice :: rest ->
  resp_choices response' = choice :: rest' ->
  reaches_eval self (Ok response) = false ->
  complete backend py_eval py self messages tools model kwargs t
  = complete backend' py_eval py self messages tools model kwargs t.
Proof.
  intros request Hreply Hreply' Hchoices Hchoices' Hreach. subst request.
  assert (Hreach' : reaches_eval self (Ok response') = false).
  { destruct self; [done |]. unfold reaches_eval, answered_tool_calls in *.
    rewrite Hchoices in Hreach. by rewrite Hchoices'. }
  rewrite !complete_run.
  rewrite (complete_outcome_no_eval backend) by (by rewrite Hreply).
  rewrite (complete_outcome_no_eval backend') by (by rewrite Hreply').
  unfold plain_outcome. by rewrite Hreply, Hreply', Hchoices, Hchoices'.
Qed.

Lemma complete_reads_first_choice_witness :
  let second := {| choice_message := {| msg_content := Some "Other";
                                        msg_tool_calls := None |} |} in
  let longer :=
    {| resp_choices := resp_choices Reply.text_only ++ [second] |} in
  complete (Reply.always (Ok Reply.text_only)) Reply.python_eval Sample.python
    Sample.openai Reply.user_turn PNone PNone ∅ []
  = complete (Reply.always (Ok longer)) Reply.python_eval Sample.python Sample.openai
      Reply.user_turn PNone PNone ∅ [].
Proof.
  cbv zeta.
  set (second := {| choice_message := {| msg_content := Some "Other";
                                         msg_tool_calls := None |} |}).
  set (longer := {| resp_choices := resp_choices Reply.text_only ++ [second] |}).
  exact (complete_reads_first_choice (Reply.always (Ok Reply.text_only))
           (Reply.always (Ok longer)) Reply.python_eval Sample.python Sample.openai
           Reply.user_turn PNone PNone ∅ [] Reply.text_only longer
           {| choice_message := {| msg_content := Some "Hello";
                                   msg_tool_calls := None |} |}
           [] [second] eq_refl eq_refl eq_refl eq_refl eq_refl).
Defined.

(** X20. A response without any choice makes [complete] raise [IndexError]:
    the request has been made, nothing is returned, and the error is
    recorded like an error of the backend. *)
Theorem complete_no_choice backend py_eval py self messages tools model kwargs t
    response :
  let request := request_kwargs self messages tools model kwargs in
  let e := exception "IndexError" "list index out of range" in
  backend (provider_client self) request = Ok response ->
  resp_choices response = [] ->
  complete backend py_eval py self messages tools model kwargs t
  = (Raise e,
     t ++ [EvCreate (provider_client self) request;
           EvLog ERROR [FLit (provider_label self +:+ " API error: "); FExn e]]).
Proof.
  intros request e Hreply Hchoices. subst request e.
  rewrite complete_run. unfold complete_outcome.
  by rewrite Hreply, Hchoices.
Qed.

Lemma complete_no_choice_witness :
  fst (complete (Reply.always (Ok {| resp_choices := [] |})) Reply.python_eval
         Sample.python Sample.openai Reply.user_turn PNone PNone ∅ [])
  = Raise (exception "IndexError" "list index out of range").
Proof.
  exact (f_equal fst
           (complete_no_choice (Reply.always (Ok {| resp_choices := [] |}))
              Reply.python_eval Sample.python Sample.openai Reply.user_turn PNone
              PNone ∅ [] {| resp_choices := [] |} eq_refl eq_refl)).
Defined.
